(** * Disney API test suite (disney-api-test.js): model and properties

    The script is a Node program: [runTests] awaits five checks one after the
    other; each check fetches the characters endpoint, inspects the answer,
    writes to the console and re-throws what it caught.

    The embedding is shallow.  JavaScript values are an inductive type, the
    console and the list of requests sent are an explicit state, and a thrown
    error is a second kind of result; [await] on a promise is the sequencing
    of that state-and-error monad, since the script never has two promises
    pending at once. *)

From stdpp Require Import gmap strings list pretty.

Local Set Warnings "-register-all".
Local Open Scope string_scope.
Local Open Scope Z_scope.
Local Open Scope list_scope.

(** ** Values *)

(** A JavaScript number, by the three things the script does with one: test
    it for truth, compare it with an integer literal, print it.  [NInt z] is
    the integer [z], for the doubles that are integers of magnitude below
    10^21 (those print in plain decimal; [-0] is [NInt 0]).  [NOther shown]
    is any other number that [JSON.parse] can produce (fractions, larger
    magnitudes, the infinities of an overflowing literal), with the text
    [Number::toString] gives it. *)
Inductive number :=
  | NInt (z : Z)
  | NOther (shown : string).

(** What [JSON.parse] builds, and [undefined], which reading an absent
    property gives.  Strings hold the UTF-8 bytes of the text.  An object is
    its own properties: [JSON.parse] creates data properties only, and its
    prototype is [Object.prototype]. *)
Inductive value :=
  | VUndefined
  | VNull
  | VBool (b : bool)
  | VNum (n : number)
  | VStr (s : string)
  | VArr (elements : list value)
  | VObj (properties : gmap string value).

(** The errors that can be thrown: [new Error(msg)] of the checks, the
    [TypeError]s of the language, and whatever [fetch] and [response.json()]
    reject with (a [TypeError] for a network failure, a [SyntaxError] for a
    body that is not JSON, ...). *)
Inductive error_name :=
  | Error
  | TypeError
  | SyntaxError
  | OtherError (name : string).

Record js_error := mkError { err_name : error_name; err_message : string }.

(** Why the language raises a [TypeError] in this script. *)
Inductive type_error_cause :=
  | ReadOfNullish (base : value) (property : string)
      (* [base.property] with [base] undefined or null *)
  | DestructureOfNullish (base : value) (property : string)
      (* [const { property } = base] with [base] undefined or null *)
  | NotAFunction (callee : string)
      (* calling [callee], which is not a function *)
  | NoPrimitiveValue.
      (* an object with neither a callable toString nor a usable valueOf *)

Inductive outcome (A : Type) :=
  | Returned (a : A)
  | Thrown (e : js_error).
Arguments Returned {A} a.
Arguments Thrown {A} e.

(** A [Response]: its [status], and what [response.json()] settles to. *)
Record response := mkResponse { status : Z; json : outcome value }.

(** The text of the language's own [TypeError]s, which ECMAScript leaves to
    the engine. *)
Definition engine : Type := type_error_cause -> string.

(** The world outside the script.  [fetch_result n url] is what the [n]-th
    call of [fetch] of the process (counting from 0) settles to when it asks
    for [url]. *)
Record host := mkHost {
  fetch_result : nat -> string -> outcome response;
  type_error_message : engine
}.

(** A console call: the stream it writes to and its arguments, which the
    console prints separated by one space. *)
Inductive stream := Stdout | Stderr.

Record entry := mkEntry { entry_stream : stream; entry_args : list string }.

(** What the process has done so far: the URLs requested, oldest first, and
    the console calls, oldest first. *)
Record state := mkState { requests : list string; console : list entry }.

Definition M (A : Type) : Type := host -> state -> outcome A * state.

(** ** The language's operations on values *)

(** Result of the pure part of an expression: a value or a thrown error. *)
Definition obind {A B} (o : outcome A) (k : A -> outcome B) : outcome B :=
  match o with
  | Returned a => k a
  | Thrown e => Thrown e
  end.

(** [ToBoolean]: what [if (v)], [v && ...] and the callbacks of [every] and
    [some] test. *)
Definition ToBoolean (v : value) : bool :=
  match v with
  | VUndefined | VNull => false
  | VBool b => b
  | VNum (NInt z) => negb (z =? 0)
  | VNum (NOther _) => true
  | VStr s => negb (String.eqb s EmptyString)
  | VArr _ | VObj _ => true
  end.

(** Length of a string in UTF-16 code units, from its UTF-8 bytes: one unit
    per character, two for a character of four bytes. *)
Fixpoint utf16_length (s : string) : nat :=
  match s with
  | EmptyString => O
  | String c rest =>
      let b := Ascii.nat_of_ascii c in
      ((if (128 <=? b)%nat && (b <? 192)%nat then 0 else
        if (240 <=? b)%nat then 2 else 1) + utf16_length rest)%nat
  end.

(** [Number::toString]. *)
Definition number_to_string (n : number) : string :=
  match n with
  | NInt z => pretty z
  | NOther shown => shown
  end.

Definition type_error (en : engine) (cause : type_error_cause) : js_error :=
  mkError TypeError (en cause).

(** The first error of a list of results, or all their values. *)
Fixpoint all_returned {A} (l : list (outcome A)) : outcome (list A) :=
  match l with
  | [] => Returned []
  | o :: rest =>
      obind o (fun a => obind (all_returned rest) (fun r => Returned (a :: r)))
  end.

(** [ToString], which a template literal applies to each [${...}].  An
    array prints as [join(",")] of its elements, undefined and null ones as
    the empty string.  An object prints through [Object.prototype.toString]
    unless it has a property [toString] of its own: a parsed value is never
    callable, and [valueOf] then gives no primitive either. *)
Fixpoint ToString (en : engine) (v : value) {struct v} : outcome string :=
  match v with
  | VUndefined => Returned "undefined"
  | VNull => Returned "null"
  | VBool b => Returned (if b then "true" else "false")
  | VNum n => Returned (number_to_string n)
  | VStr s => Returned s
  | VArr elements =>
      obind (all_returned
               (map (fun x => match x with
                              | VUndefined | VNull => Returned EmptyString
                              | _ => ToString en x
                              end) elements))
            (fun parts => Returned (String.concat "," parts))
  | VObj properties =>
      match properties !! "toString" with
      | None => Returned "[object Object]"
      | Some _ => Thrown (type_error en NoPrimitiveValue)
      end
  end.

(** [base.property], for the properties the script reads: [data], [name]
    and [length].  No prototype defines the first two; [length] is an own
    property of arrays and strings. *)
Definition get_prop (en : engine) (base : value) (property : string)
  : outcome value :=
  match base with
  | VUndefined | VNull => Thrown (type_error en (ReadOfNullish base property))
  | VObj properties => Returned (default VUndefined (properties !! property))
  | VArr elements =>
      Returned (if String.eqb property "length"
                then VNum (NInt (Z.of_nat (length elements))) else VUndefined)
  | VStr s =>
      Returned (if String.eqb property "length"
                then VNum (NInt (Z.of_nat (utf16_length s))) else VUndefined)
  | VBool _ | VNum _ => Returned VUndefined
  end.

(** [const { property } = base]. *)
Definition destructure (en : engine) (base : value) (property : string)
  : outcome value :=
  match base with
  | VUndefined | VNull =>
      Thrown (type_error en (DestructureOfNullish base property))
  | _ => get_prop en base property
  end.

(** [v === "literal"] and [v === literal] for an integer literal. *)
Definition strict_equals_string (v : value) (literal : string) : bool :=
  match v with
  | VStr s => String.eqb s literal
  | _ => false
  end.

Definition strict_equals_int (v : value) (literal : Z) : bool :=
  match v with
  | VNum (NInt z) => z =? literal
  | _ => false
  end.

Definition Array_isArray (v : value) : bool :=
  match v with
  | VArr _ => true
  | _ => false
  end.

(** [Array.prototype.every] and [Array.prototype.some]: the callback runs on
    the elements in order until its result decides; what it throws is
    thrown. *)
Fixpoint Array_every (callback : value -> outcome value) (l : list value)
  : outcome bool :=
  match l with
  | [] => Returned true
  | x :: rest =>
      obind (callback x) (fun r =>
        if ToBoolean r then Array_every callback rest else Returned false)
  end.

Fixpoint Array_some (callback : value -> outcome value) (l : list value)
  : outcome bool :=
  match l with
  | [] => Returned false
  | x :: rest =>
      obind (callback x) (fun r =>
        if ToBoolean r then Returned true else Array_some callback rest)
  end.

(** [receiver.method(callback)] for [every] and [some], where [expr] is the
    text of the receiver in the source.  Only an array has these methods: a
    parsed object may have a property of that name, never a callable one. *)
Definition call_array_method (en : engine) (expr : string) (receiver : value)
    (method : string)
    (run : (value -> outcome value) -> list value -> outcome bool)
    (callback : value -> outcome value) : outcome bool :=
  match receiver with
  | VUndefined | VNull => Thrown (type_error en (ReadOfNullish receiver method))
  | VArr elements => run callback elements
  | _ => Thrown (type_error en (NotAFunction (expr +:+ "." +:+ method)))
  end.

(** [String.prototype.includes], on the bytes. *)
Fixpoint starts_with (s sub : string) {struct sub} : bool :=
  match sub with
  | EmptyString => true
  | String c sub' =>
      match s with
      | String d s' => Ascii.eqb c d && starts_with s' sub'
      | EmptyString => false
      end
  end.

Fixpoint includes (s sub : string) : bool :=
  starts_with s sub ||
  match s with
  | EmptyString => false
  | String _ s' => includes s' sub
  end.

(** The elements of an array value; used where the value is known to be an
    array, so that [a.length] is their number. *)
Definition elements_of (v : value) : list value :=
  match v with
  | VArr elements => elements
  | _ => []
  end.

(** ** Effects *)

#[export] Instance M_ret : MRet M := fun A a _ s => (Returned a, s).

#[export] Instance M_bind : MBind M := fun A B k m h s =>
  match m h s with
  | (Returned a, s') => k a h s'
  | (Thrown e, s') => (Thrown e, s')
  end.

(** [throw e]. *)
Definition throw {A} (e : js_error) : M A := fun _ s => (Thrown e, s).

(** [try { body } catch (error) { handler }]. *)
Definition try_catch {A} (body : M A) (handler : js_error -> M A) : M A :=
  fun h s =>
    match body h s with
    | (Returned a, s') => (Returned a, s')
    | (Thrown e, s') => handler e h s'
    end.

Notation "'try' body 'catch' error => handler" :=
  (try_catch body (fun error => handler))
  (at level 10, body at level 200, error name, handler at level 200,
   only parsing).

(** An expression without effects, which may throw. *)
Definition eval {A} (expression : engine -> outcome A) : M A :=
  fun h s => (expression (type_error_message h), s).

(** [await fetch(url)]: the request is recorded and the host answers. *)
Definition fetch (url : string) : M response := fun h s =>
  (fetch_result h (length (requests s)) url,
   mkState (requests s ++ [url]) (console s)).

(** [console.log(...)] and [console.error(...)]. *)
Definition write (out : stream) (args : list string) : M unit := fun _ s =>
  (Returned tt, mkState (requests s) (console s ++ [mkEntry out args])).

Definition console_log := write Stdout.
Definition console_error := write Stderr.

(** ** The script *)

Definition newline : string := String (Ascii.ascii_of_nat 10) EmptyString.

Definition API_URL : string := "https://api.disneyapi.dev/characters".

Definition testStatusCode : M unit :=
  try
    response ← fetch API_URL;
    if status response =? 200 then
      console_log ["Test 1: Status code is 200"]
    else
      throw (mkError Error ("Expected status code 200, but got "
                            +:+ number_to_string (NInt (status response))
                            +:+ " ❌"))
  catch error =>
    console_error ["Test 1: FAILED"; err_message error];;
    throw error.

Definition testDataStructure : M unit :=
  try
    response ← fetch API_URL;
    data ← eval (fun _ => json response);
    data_data ← eval (fun en => get_prop en data "data");
    if ToBoolean data_data && Array_isArray data_data then
      console_log ["Test 2: Response 'data' property is an array"];;
      if (0 <? length (elements_of data_data))%nat then
        console_log ["Test 2: Data array is not empty"]
      else
        throw (mkError Error "Data array is empty.")
    else
      throw (mkError Error "Response body does not have a valid 'data' array.")
  catch error =>
    console_error ["Test 2: FAILED"; err_message error];;
    throw error.

Definition testCharactersHaveNames : M unit :=
  try
    response ← fetch API_URL;
    body ← eval (fun _ => json response);
    data ← eval (fun en => destructure en body "data");
    allHaveNames ← eval (fun en =>
      call_array_method en "data" data "every" Array_every
        (fun character => get_prop en character "name"));
    if (allHaveNames : bool) then
      console_log ["Test 3: All characters have a 'name' property"]
    else
      throw (mkError Error "Some characters are missing a 'name' property.")
  catch error =>
    console_error ["Test 3: FAILED"; err_message error];;
    throw error.

Definition testSpecificCharacterExists : M unit :=
  let specificCharacterUrl := API_URL +:+ "?name=Mickey Mouse" in
  try
    response ← fetch specificCharacterUrl;
    body ← eval (fun _ => json response);
    data ← eval (fun en => destructure en body "data");
    found ← eval (fun en =>
      call_array_method en "data" data "some" Array_some
        (fun character =>
           obind (get_prop en character "name") (fun name =>
             Returned (VBool (strict_equals_string name "Mickey Mouse")))));
    if (found : bool) then
      console_log ["Test 4: 'Mickey Mouse' character found."]
    else
      throw (mkError Error "'Mickey Mouse' character not found.")
  catch error =>
    console_error ["Test 4: FAILED."; err_message error];;
    throw error.

Definition testPagination : M unit :=
  try
    response ← fetch API_URL;
    body ← eval (fun _ => json response);
    data ← eval (fun en => destructure en body "data");
    count ← eval (fun en => destructure en body "count");
    totalPages ← eval (fun en => destructure en body "totalPages");
    nextPage ← eval (fun en => destructure en body "nextPage");
    previousPage ← eval (fun en => destructure en body "previousPage");
    let defaultPageSize := 50 in
    data_length ← eval (fun en => get_prop en data "length");
    if strict_equals_int data_length defaultPageSize then
      console_log ["Test 5: Pagination returns the correct number of items per page ("
                   +:+ number_to_string (NInt defaultPageSize) +:+ ")."]
    else
      shown ← eval (fun en => ToString en data_length);
      throw (mkError Error ("Expected " +:+ number_to_string (NInt defaultPageSize)
                            +:+ " items per page, but got " +:+ shown))
  catch error =>
    console_error ["Test 5: FAILED."; err_message error];;
    throw error.

Definition runTests : M unit :=
  console_log ["--- Running Disney API Tests ---"];;
  try
    testStatusCode;;
    testDataStructure;;
    testCharactersHaveNames;;
    testSpecificCharacterExists;;
    testPagination;;
    console_log [newline +:+ "All tests completed successfully"]
  catch error =>
    console_error [newline +:+ "Tests failed!"; err_message error].

(** ** The five checks, by name *)

Inductive check :=
  | StatusCode
  | DataShape
  | NamePresence
  | SpecificRecord
  | PaginationSize.

Definition run_check (c : check) : M unit :=
  match c with
  | StatusCode => testStatusCode
  | DataShape => testDataStructure
  | NamePresence => testCharactersHaveNames
  | SpecificRecord => testSpecificCharacterExists
  | PaginationSize => testPagination
  end.

(** The order in which [runTests] awaits them. *)
Definition checks : list check :=
  [StatusCode; DataShape; NamePresence; SpecificRecord; PaginationSize].

(** The URL a check asks for. *)
Definition check_url (c : check) : string :=
  match c with
  | SpecificRecord => API_URL +:+ "?name=Mickey Mouse"
  | _ => API_URL
  end.

(** First argument of the [console.error] of a check's [catch]. *)
Definition failure_label (c : check) : string :=
  match c with
  | StatusCode => "Test 1: FAILED"
  | DataShape => "Test 2: FAILED"
  | NamePresence => "Test 3: FAILED"
  | SpecificRecord => "Test 4: FAILED."
  | PaginationSize => "Test 5: FAILED."
  end.

(** The lines a check can write with [console.log]. *)
Definition pass_lines (c : check) : list string :=
  match c with
  | StatusCode => ["Test 1: Status code is 200"]
  | DataShape => ["Test 2: Response 'data' property is an array";
                  "Test 2: Data array is not empty"]
  | NamePresence => ["Test 3: All characters have a 'name' property"]
  | SpecificRecord => ["Test 4: 'Mickey Mouse' character found."]
  | PaginationSize =>
      ["Test 5: Pagination returns the correct number of items per page (50)."]
  end.

(** ** States and observations *)

Definition initial_state : state := mkState [] [].

(** [s] followed by what [d] records. *)
Definition extend (s d : state) : state :=
  mkState (requests s ++ requests d) (console s ++ console d).

(** What the console shows for a call: the arguments separated by a space. *)
Definition entry_text (e : entry) : string := String.concat " " (entry_args e).

Definition written_to (out : stream) (e : entry) : bool :=
  match out, entry_stream e with
  | Stdout, Stdout | Stderr, Stderr => true
  | _, _ => false
  end.

(** Some call on [out] shows a text that includes [text]. *)
Definition shows (out : stream) (text : string) (es : list entry) : bool :=
  existsb (fun e => written_to out e && includes (entry_text e) text) es.

(** Some call shows a text that includes [text]. *)
Definition shows_anywhere (text : string) (es : list entry) : bool :=
  existsb (fun e => includes (entry_text e) text) es.

Definition is_returned {A} (o : outcome A) : bool :=
  match o with
  | Returned _ => true
  | Thrown _ => false
  end.

(** ** Hosts to run the script against *)

(** The messages of V8, the engine of Node. *)
Definition v8_message : engine := fun cause =>
  let show_nullish v := match v with VNull => "null" | _ => "undefined" end in
  match cause with
  | ReadOfNullish base property =>
      "Cannot read properties of " +:+ show_nullish base
      +:+ " (reading '" +:+ property +:+ "')"
  | DestructureOfNullish base property =>
      "Cannot destructure property '" +:+ property
      +:+ "' of '(intermediate value)' as it is " +:+ show_nullish base +:+ "."
  | NotAFunction callee => callee +:+ " is not a function"
  | NoPrimitiveValue => "Cannot convert object to primitive value"
  end.

(** A host that answers every request with [answer]. *)
Definition answering (answer : outcome response) : host :=
  mkHost (fun _ _ => answer) v8_message.

(** A host that answers the calls with [answers] in turn, and fails the
    calls after them as a network failure does. *)
Definition scripted (answers : list (outcome response)) : host :=
  mkHost (fun n _ => default (Thrown (mkError TypeError "fetch failed"))
                             (answers !! n))
         v8_message.

(** A response with status 200 and the parsed body [body]. *)
Definition ok_json (body : value) : outcome response :=
  Returned (mkResponse 200 (Returned body)).

Definition object (properties : list (string * value)) : value :=
  VObj (list_to_map properties).

Definition character (name : string) : value :=
  object [("name", VStr name)].

(** A page of [n] characters, the first of them Mickey Mouse. *)
Definition page (n : nat) : value :=
  object [("data", VArr (take n (character "Mickey Mouse"
                                  :: replicate n (character "Donald Duck"))))].

(** Five answers on which the suite fails at its last check: every page
    has 50 characters but the last, which has 10. *)
Definition sample_answers : list (outcome response) :=
  [Returned (mkResponse 200 (Returned VNull));
   ok_json (page 50); ok_json (page 50); ok_json (page 50); ok_json (page 10)].

(** ** Running a check *)

(** A check returned. *)
Definition passes (c : M unit) (h : host) (s : state) : Prop :=
  fst (c h s) = Returned tt.

(** A check threw [e]. *)
Definition throws (c : M unit) (h : host) (s : state) (e : js_error) : Prop :=
  fst (c h s) = Thrown e.

(** The host answers the next request, for [url], with [r]. *)
Definition answers_next (h : host) (s : state) (url : string) (r : response)
  : Prop :=
  fetch_result h (length (requests s)) url = Returned r.


(** ** What the checks look for *)

Definition nullish (v : value) : bool :=
  match v with
  | VUndefined | VNull => true
  | _ => false
  end.

(** [x.name] can be read and is truthy. *)
Definition has_truthy_name (en : engine) (x : value) : bool :=
  match get_prop en x "name" with
  | Returned name => ToBoolean name
  | Thrown _ => false
  end.

(** [x.name] can be read and is the string [name]. *)
Definition is_named (en : engine) (name : string) (x : value) : bool :=
  match get_prop en x "name" with
  | Returned n => strict_equals_string n name
  | Thrown _ => false
  end.

(** The element at which [every] stops in the Name Presence check: the first
    one whose [name] cannot be read or is falsy. *)
Definition first_unnamed (en : engine) (l : list value) : option value :=
  List.find (fun x => negb (has_truthy_name en x)) l.

(** The element at which [some] stops in the Specific Record check: the
    first one that is null or undefined, or is named [name]. *)
Definition first_null_or_named (en : engine) (name : string) (l : list value)
  : option value :=
  List.find (fun x => nullish x || is_named en name x) l.

(** ** Runs that see the same answers *)

(** From [s] on, [h] answers the next [k] requests as [h'] does from [s']
    on, and both run the same engine. *)
Definition agree (k : nat) (h : host) (s : state) (h' : host) (s' : state)
  : Prop :=
  type_error_message h = type_error_message h' /\
  forall (i : nat) (url : string), (i < k)%nat ->
    fetch_result h (length (requests s) + i) url
    = fetch_result h' (length (requests s') + i) url.

(** [m] sends at most [n] requests, and what it returns and records depends
    on nothing but the answers to them: not on what was requested or
    written before. *)
Definition framed {A} (n : nat) (m : M A) : Prop :=
  forall (h : host) (s : state) (h' : host) (s' : state),
    agree n h s h' s' ->
    exists (r : outcome A) (d : state),
      (length (requests d) <= n)%nat /\
      m h s = (r, extend s d) /\ m h' s' = (r, extend s' d).

(** ** The run as the specification words it *)

(** The checks of [cs] invoked one after the other, none after the first
    that signals failure: the checks invoked, how the last of them ended,
    and the state reached. *)
Fixpoint invoke_until_failure (cs : list check) (h : host) (s : state)
  : list check * outcome unit * state :=
  match cs with
  | [] => ([], Returned tt, s)
  | c :: rest =>
      match run_check c h s with
      | (Returned _, s') =>
          let '(invoked, r, s'') := invoke_until_failure rest h s' in
          (c :: invoked, r, s'')
      | (Thrown e, s') => ([c], Thrown e, s')
      end
  end.

(** The first and the last console call of [runTests]. *)
Definition banner : entry := mkEntry Stdout ["--- Running Disney API Tests ---"].

Definition summary (r : outcome unit) : entry :=
  match r with
  | Returned _ => mkEntry Stdout [newline +:+ "All tests completed successfully"]
  | Thrown e => mkEntry Stderr [newline +:+ "Tests failed!"; err_message e]
  end.

(** [s] once [runTests] has written its banner. *)
Definition started (s : state) : state :=
  mkState (requests s) (console s ++ [banner]).

(** The [console.log] call of a check that found what it looked for. *)
Definition benign (e : entry) : Prop :=
  exists (c : check) (line : string),
    In line (pass_lines c) /\ e = mkEntry Stdout [line].

(** ** A check on its own *)

(** The host that gives [answer] to every request, under the engine [en]. *)
Definition answering_with (en : engine) (answer : outcome response) : host :=
  mkHost (fun _ _ => answer) en.

(** The [console.log] call that writes [line]. *)
Definition log_line (line : string) : entry := mkEntry Stdout [line].

(** The [console.error] call of the [catch] of check [c] for the error [e]. *)
Definition failed_line (c : check) (e : js_error) : entry :=
  mkEntry Stderr [failure_label c; err_message e].

(** What is left of [s] once check [c] has sent its request and written
    [es]. *)
Definition after_check (c : check) (s : state) (es : list entry) : state :=
  mkState (requests s ++ [check_url c]) (console s ++ es).
(** * Properties *)

(** ** Text *)

Lemma starts_with_app (a b : string) : starts_with (a +:+ b) a = true.
Proof.
  induction a as [|c a IH]; simpl; [done|].
  by rewrite Ascii.eqb_refl, IH.
Qed.

Lemma includes_prefix (a b : string) : includes (a +:+ b) a = true.
Proof.
  destruct a as [|c a]; [by destruct b|].
  change (includes (String c a +:+ b) (String c a))
    with (starts_with (String c a +:+ b) (String c a)
          || includes (a +:+ b) (String c a)).
  by rewrite starts_with_app.
Qed.

Lemma includes_app_r (p s sub : string) :
  includes s sub = true -> includes (p +:+ s) sub = true.
Proof.
  intros Hs. induction p as [|c p IH]; [done|].
  change (includes (String c p +:+ s) sub)
    with (starts_with (String c (p +:+ s)) sub || includes (p +:+ s) sub).
  rewrite IH. apply orb_true_r.
Qed.

Lemma includes_middle (p a q : string) : includes (p +:+ a +:+ q) a = true.
Proof. apply includes_app_r, includes_prefix. Qed.

(** ** The verdict of each check *)

Ltac run_script :=
  unfold passes, throws, answers_next, run_check, testStatusCode,
    testDataStructure, testCharactersHaveNames, testSpecificCharacterExists,
    testPagination, try_catch, mbind, M_bind, fetch, eval, throw,
    console_log, console_error, write in *.

(** C2.  When the request of the Status Code check is answered, the check
    returns if and only if the status is 200; for any other status it throws
    an error whose message includes "Expected status code 200" and the
    decimal text of the status received. *)
Theorem testStatusCode_iff_status_200 (h : host) (s : state) (r : response) :
  answers_next h s API_URL r ->
  (passes testStatusCode h s <-> status r = 200) /\
  (status r <> 200 ->
   exists e, throws testStatusCode h s e /\
     includes (err_message e) "Expected status code 200" = true /\
     includes (err_message e) (pretty (status r)) = true).
Proof.
  intros Hr. run_script. rewrite Hr. simpl fst.
  destruct (Z.eqb_spec (status r) 200) as [Heq|Hne]; simpl.
  - split; [by split|]. intros Hne; by destruct Hne.
  - split; [split; [discriminate|done]|]. intros _.
    eexists. split; [reflexivity|]. simpl err_message. split.
    + apply (includes_prefix "Expected status code 200").
    + apply (includes_middle "Expected status code 200, but got ").
Qed.

Lemma testStatusCode_iff_status_200_witness :
  answers_next (answering (Returned (mkResponse 404 (Returned VNull))))
               initial_state API_URL (mkResponse 404 (Returned VNull)) /\
  exists e,
    throws testStatusCode
           (answering (Returned (mkResponse 404 (Returned VNull))))
           initial_state e /\
    includes (err_message e) "Expected status code 200" = true /\
    includes (err_message e) "404" = true.
Proof.
  split; [reflexivity|].
  apply (testStatusCode_iff_status_200
           (answering (Returned (mkResponse 404 (Returned VNull))))
           initial_state (mkResponse 404 (Returned VNull)));
    [reflexivity | discriminate].
Defined.

(** An array is truthy: the guard of the Data Shape check is
    [Array.isArray]. *)
Lemma truthy_and_isArray (d : value) :
  ToBoolean d && Array_isArray d = Array_isArray d.
Proof. destruct d; simpl; try done; apply andb_false_r. Qed.

(** C3, amended.  When the request of the Data Shape check is answered with a body
    that parses, and [d] is what reading [data] of the body gives
    ([undefined] when the field is missing): the check returns if and only if
    [d] is an array that is not empty.  An empty array is reported as
    "Data array is empty."; a missing [data] and a [data] that is not an
    array are both reported with the one message "Response body does not
    have a valid 'data' array.", which differs from the first. *)
Theorem testDataStructure_verdict (h : host) (s : state) (r : response)
    (body d : value) :
  answers_next h s API_URL r ->
  json r = Returned body ->
  get_prop (type_error_message h) body "data" = Returned d ->
  (passes testDataStructure h s <-> exists l, d = VArr l /\ l <> []) /\
  (d = VArr [] ->
   throws testDataStructure h s (mkError Error "Data array is empty.")) /\
  (d = VUndefined ->
   throws testDataStructure h s
     (mkError Error "Response body does not have a valid 'data' array.")) /\
  (d <> VUndefined -> Array_isArray d = false ->
   throws testDataStructure h s
     (mkError Error "Response body does not have a valid 'data' array.")) /\
  "Data array is empty."
    <> "Response body does not have a valid 'data' array.".
Proof.
  intros Hr Hbody Hd. run_script. rewrite Hr. simpl. rewrite Hbody, Hd.
  rewrite truthy_and_isArray.
  destruct d as [| |b|n|t|[|x l]|o]; simpl.
  all: repeat split; try done; try (intros [l [[=] Hl]]; done).
  intros _. by exists (x :: l).
Qed.

Lemma testDataStructure_verdict_witness :
  passes testDataStructure
    (answering (ok_json (object [("data", VArr [character "Goofy"])])))
    initial_state /\
  "Data array is empty."
    <> "Response body does not have a valid 'data' array.".
Proof.
  destruct (testDataStructure_verdict
              (answering (ok_json (object [("data", VArr [character "Goofy"])])))
              initial_state
              (mkResponse 200
                 (Returned (object [("data", VArr [character "Goofy"])])))
              (object [("data", VArr [character "Goofy"])])
              (VArr [character "Goofy"]))
    as (Hiff & _ & _ & _ & Hdistinct);
    [reflexivity | reflexivity | vm_compute; reflexivity |].
  split; [|exact Hdistinct].
  apply Hiff. eexists. split; [reflexivity | discriminate].
Defined.

(** C3, the claim as written fails: a body without [data] and a body whose
    [data] is the number 5 are reported with the same message. *)
Lemma testDataStructure_missing_and_not_array_share_message :
  exists e1 e2,
    throws testDataStructure (answering (ok_json (object []))) initial_state e1 /\
    throws testDataStructure
      (answering (ok_json (object [("data", VNum (NInt 5))]))) initial_state e2 /\
    err_message e1 = err_message e2.
Proof. do 2 eexists. repeat split; vm_compute; reflexivity. Qed.

Lemma get_prop_not_nullish (en : engine) (x : value) (p : string) :
  nullish x = false -> exists v, get_prop en x p = Returned v.
Proof. destruct x; simpl; try done; eauto. Qed.

Lemma every_true_iff (en : engine) (l : list value) :
  Array_every (fun x => get_prop en x "name") l = Returned true
  <-> forallb (has_truthy_name en) l = true.
Proof.
  induction l as [|x l IH]; simpl; [done|].
  unfold has_truthy_name at 1.
  destruct (get_prop en x "name") as [n|e]; simpl; [|done].
  destruct (ToBoolean n); simpl; [exact IH | done].
Qed.

(** What [every] gives in the Name Presence check: it reads [name] of the
    elements in turn and stops at the first without a truthy one. *)
Lemma every_verdict (en : engine) (l : list value) :
  Array_every (fun x => get_prop en x "name") l
  = match first_unnamed en l with
    | None => Returned true
    | Some x =>
        if nullish x then Thrown (type_error en (ReadOfNullish x "name"))
        else Returned false
    end.
Proof.
  unfold first_unnamed. induction l as [|x l IH]; simpl; [done|].
  unfold has_truthy_name at 1.
  destruct x; simpl; try done;
    match goal with
    | |- context [ToBoolean ?v] => destruct (ToBoolean v); simpl; done
    end.
Qed.

(** C4, amended.  When the request of the Name Presence check is answered
    with a body whose [data] is the array [l]: the check returns if and
    only if every element of [l] has a truthy [name].  Otherwise it fails at
    the first element without one.  If that element is not null, the check
    throws the error "Some characters are missing a 'name' property.": one
    fixed text, the same whichever elements lack a name.  If that element is
    null, the check throws the [TypeError] of reading [name] of null. *)
Theorem testCharactersHaveNames_verdict (h : host) (s : state)
    (r : response) (body : value) (l : list value) :
  answers_next h s API_URL r ->
  json r = Returned body ->
  destructure (type_error_message h) body "data" = Returned (VArr l) ->
  (passes testCharactersHaveNames h s
   <-> forallb (has_truthy_name (type_error_message h)) l = true) /\
  match first_unnamed (type_error_message h) l with
  | None => passes testCharactersHaveNames h s
  | Some x =>
      if nullish x then
        throws testCharactersHaveNames h s
          (type_error (type_error_message h) (ReadOfNullish x "name"))
      else
        throws testCharactersHaveNames h s
          (mkError Error "Some characters are missing a 'name' property.")
  end.
Proof.
  intros Hr Hbody Hd. split.
  - rewrite <- every_true_iff. run_script. rewrite Hr. simpl.
    rewrite Hbody, Hd. simpl.
    destruct (Array_every _ l) as [[|]|e]; simpl; split; done.
  - run_script. rewrite Hr. simpl. rewrite Hbody, Hd. simpl.
    rewrite every_verdict.
    destruct (first_unnamed _ l) as [x|]; [|done].
    destruct (nullish x); done.
Qed.

Lemma testCharactersHaveNames_verdict_witness :
  throws testCharactersHaveNames
    (answering (ok_json (object [("data", VArr [character "A"; object []])])))
    initial_state
    (mkError Error "Some characters are missing a 'name' property.").
Proof.
  destruct (testCharactersHaveNames_verdict
              (answering (ok_json (object [("data", VArr [character "A"; object []])])))
              initial_state
              (mkResponse 200
                 (Returned (object [("data", VArr [character "A"; object []])])))
              (object [("data", VArr [character "A"; object []])])
              [character "A"; object []])
    as [_ Hfirst];
    [reflexivity | reflexivity | vm_compute; reflexivity |].
  exact Hfirst.
Defined.

(** C4, the claim as written fails: in the array of a named record, [null]
    and a record without a name, an element lacks a name, yet the check
    throws the [TypeError] of reading [name] of null, not its own error. *)
Lemma testCharactersHaveNames_null_before_unnamed :
  has_truthy_name v8_message (object []) = false /\
  throws testCharactersHaveNames
    (answering (ok_json (object [("data", VArr [character "A"; VNull;
                                                object []])])))
    initial_state (type_error v8_message (ReadOfNullish VNull "name")) /\
  type_error v8_message (ReadOfNullish VNull "name")
  <> mkError Error "Some characters are missing a 'name' property.".
Proof. repeat split; by vm_compute. Qed.

Lemma some_of_records (en : engine) (name : string) (l : list value) :
  forallb (fun x => negb (nullish x)) l = true ->
  Array_some (fun x => obind (get_prop en x "name") (fun n =>
                Returned (VBool (strict_equals_string n name)))) l
  = Returned (existsb (is_named en name) l).
Proof.
  induction l as [|x l IH]; simpl; [done|].
  intros [Hx Hl]%andb_true_iff. apply negb_true_iff in Hx.
  destruct (get_prop_not_nullish en x "name" Hx) as [n Hn].
  unfold is_named at 1. rewrite Hn. simpl.
  destruct (strict_equals_string n name); simpl; [done | by apply IH].
Qed.

(** What [some] gives in the Specific Record check: it reads [name] of the
    elements in turn and stops at the first that is null or is named
    [name]. *)
Lemma some_verdict (en : engine) (name : string) (l : list value) :
  Array_some (fun x => obind (get_prop en x "name") (fun n =>
                Returned (VBool (strict_equals_string n name)))) l
  = match first_null_or_named en name l with
    | None => Returned false
    | Some x =>
        if nullish x then Thrown (type_error en (ReadOfNullish x "name"))
        else Returned true
    end.
Proof.
  unfold first_null_or_named. induction l as [|x l IH]; simpl; [done|].
  unfold is_named at 1.
  destruct x; simpl; try done;
    match goal with
    | |- context [strict_equals_string ?v name] =>
        destruct (strict_equals_string v name); simpl; done
    end.
Qed.

(** C5, amended.  The Specific Record check requests the base URL followed
    by the text [?name=Mickey Mouse], space included.  When that request is
    answered with a body whose [data] is the array [l], the check stops at
    the first element that is null or has a [name] that is exactly the
    string "Mickey Mouse".  It returns if that element is such a record; it
    throws the [TypeError] of reading [name] of null if that element is
    null; it throws the error "'Mickey Mouse' character not found." if there
    is no such element.  So, when no element of [l] is null, the check
    returns if and only if some element is named "Mickey Mouse", and
    otherwise throws the not-found error. *)
Theorem testSpecificCharacterExists_verdict (h : host) (s : state)
    (r : response) (body : value) (l : list value) :
  answers_next h s "https://api.disneyapi.dev/characters?name=Mickey Mouse" r ->
  json r = Returned body ->
  destructure (type_error_message h) body "data" = Returned (VArr l) ->
  requests (snd (testSpecificCharacterExists h s))
  = requests s ++ ["https://api.disneyapi.dev/characters?name=Mickey Mouse"] /\
  match first_null_or_named (type_error_message h) "Mickey Mouse" l with
  | None =>
      throws testSpecificCharacterExists h s
        (mkError Error "'Mickey Mouse' character not found.")
  | Some x =>
      if nullish x then
        throws testSpecificCharacterExists h s
          (type_error (type_error_message h) (ReadOfNullish x "name"))
      else passes testSpecificCharacterExists h s
  end /\
  (forallb (fun x => negb (nullish x)) l = true ->
   (passes testSpecificCharacterExists h s
    <-> existsb (is_named (type_error_message h) "Mickey Mouse") l = true) /\
   (existsb (is_named (type_error_message h) "Mickey Mouse") l = false ->
    throws testSpecificCharacterExists h s
      (mkError Error "'Mickey Mouse' character not found."))).
Proof.
  intros Hr Hbody Hd. run_script.
  change (API_URL +:+ "?name=Mickey Mouse")
    with "https://api.disneyapi.dev/characters?name=Mickey Mouse".
  rewrite Hr. simpl. rewrite Hbody, Hd. simpl.
  split; [|split].
  - by destruct (Array_some _ l) as [[|]|e].
  - rewrite some_verdict.
    destruct (first_null_or_named _ _ l) as [x|]; [|done].
    destruct (nullish x); done.
  - intros Hrec. rewrite some_of_records by done.
    destruct (existsb _ l); simpl; repeat split; done.
Qed.

Lemma testSpecificCharacterExists_verdict_witness :
  passes testSpecificCharacterExists
    (answering (ok_json (object [("data", VArr [character "Mickey Mouse"])])))
    initial_state /\
  throws testSpecificCharacterExists
    (answering (ok_json (object [("data", VArr [character "Donald Duck"])])))
    initial_state
    (mkError Error "'Mickey Mouse' character not found.").
Proof.
  split.
  - destruct (testSpecificCharacterExists_verdict
                (answering (ok_json (object [("data", VArr [character "Mickey Mouse"])])))
                initial_state
                (mkResponse 200
                   (Returned (object [("data", VArr [character "Mickey Mouse"])])))
                (object [("data", VArr [character "Mickey Mouse"])])
                [character "Mickey Mouse"])
      as (_ & Hfirst & _);
      [reflexivity | reflexivity | vm_compute; reflexivity |].
    exact Hfirst.
  - destruct (testSpecificCharacterExists_verdict
                (answering (ok_json (object [("data", VArr [character "Donald Duck"])])))
                initial_state
                (mkResponse 200
                   (Returned (object [("data", VArr [character "Donald Duck"])])))
                (object [("data", VArr [character "Donald Duck"])])
                [character "Donald Duck"])
      as (_ & Hfirst & _);
      [reflexivity | reflexivity | vm_compute; reflexivity |].
    exact Hfirst.
Defined.

(** C5, the claim as written fails: with [null] before the record named
    "Mickey Mouse", an element matches, yet the check throws the
    [TypeError] of reading [name] of null; with [null] after a record named
    "Donald Duck", no element matches, and the error is that [TypeError],
    not the not-found error. *)
Lemma testSpecificCharacterExists_null_element :
  existsb (is_named v8_message "Mickey Mouse")
    [VNull; character "Mickey Mouse"] = true /\
  throws testSpecificCharacterExists
    (answering (ok_json (object [("data", VArr [VNull;
                                                character "Mickey Mouse"])])))
    initial_state (type_error v8_message (ReadOfNullish VNull "name")) /\
  existsb (is_named v8_message "Mickey Mouse")
    [character "Donald Duck"; VNull] = false /\
  throws testSpecificCharacterExists
    (answering (ok_json (object [("data", VArr [character "Donald Duck";
                                                VNull])])))
    initial_state (type_error v8_message (ReadOfNullish VNull "name")) /\
  type_error v8_message (ReadOfNullish VNull "name")
  <> mkError Error "'Mickey Mouse' character not found.".
Proof. repeat split; by vm_compute. Qed.

Lemma destructure_returned (en : engine) (body : value) (p : string) (d : value) :
  destructure en body p = Returned d -> nullish body = false.
Proof. by destruct body. Qed.

Lemma destructure_not_nullish (en : engine) (body : value) (p : string) :
  nullish body = false -> destructure en body p = get_prop en body p.
Proof. by destruct body. Qed.

(** C6.  When the request of the Pagination Size check is answered with a
    body whose [data] is the array [l]: the check returns if and only if [l]
    has 50 elements, and for any other length n it throws the error
    "Expected 50 items per page, but got n", n in decimal. *)
Theorem testPagination_iff_50_items (h : host) (s : state) (r : response)
    (body : value) (l : list value) :
  answers_next h s API_URL r ->
  json r = Returned body ->
  destructure (type_error_message h) body "data" = Returned (VArr l) ->
  (passes testPagination h s <-> length l = 50%nat) /\
  (length l <> 50%nat ->
   throws testPagination h s
     (mkError Error ("Expected 50 items per page, but got "
                     +:+ pretty (Z.of_nat (length l))))).
Proof.
  intros Hr Hbody Hd. run_script. rewrite Hr. simpl. rewrite Hbody, Hd. simpl.
  pose proof (destructure_returned _ _ _ _ Hd) as Hnn.
  rewrite !(destructure_not_nullish _ body) by done.
  destruct (get_prop_not_nullish (type_error_message h) body "count" Hnn)
    as [v1 ->].
  destruct (get_prop_not_nullish (type_error_message h) body "totalPages" Hnn)
    as [v2 ->].
  destruct (get_prop_not_nullish (type_error_message h) body "nextPage" Hnn)
    as [v3 ->].
  destruct (get_prop_not_nullish (type_error_message h) body "previousPage" Hnn)
    as [v4 ->].
  simpl.
  destruct (Z.eqb_spec (Z.of_nat (length l)) 50) as [Heq|Hne]; simpl.
  - split; [split; [lia|done] | lia].
  - split; [split; [done|lia] | done].
Qed.

Lemma testPagination_iff_50_items_witness :
  passes testPagination (answering (ok_json (page 50))) initial_state /\
  throws testPagination (answering (ok_json (page 10))) initial_state
    (mkError Error "Expected 50 items per page, but got 10").
Proof.
  split.
  - apply (testPagination_iff_50_items (answering (ok_json (page 50)))
             initial_state (mkResponse 200 (Returned (page 50))) (page 50)
             (take 50 (character "Mickey Mouse"
                       :: replicate 50 (character "Donald Duck"))));
      [reflexivity | reflexivity | vm_compute; reflexivity | reflexivity].
  - apply (testPagination_iff_50_items (answering (ok_json (page 10)))
             initial_state (mkResponse 200 (Returned (page 10))) (page 10)
             (take 10 (character "Mickey Mouse"
                       :: replicate 10 (character "Donald Duck"))));
      [reflexivity | reflexivity | vm_compute; reflexivity
      | vm_compute; discriminate].
Defined.

(** ** Independence from the past *)

Lemma extend_initial (s : state) : extend s initial_state = s.
Proof. destruct s. unfold extend. simpl. by rewrite !app_nil_r. Qed.

Lemma extend_assoc (s d d' : state) :
  extend (extend s d) d' = extend s (extend d d').
Proof. unfold extend. simpl. by rewrite !app_assoc. Qed.

Lemma agree_weaken (k k' : nat) h s h' s' :
  (k' <= k)%nat -> agree k h s h' s' -> agree k' h s h' s'.
Proof. intros Hk [He Hf]. split; [done|]. intros i url Hi. apply Hf. lia. Qed.

Lemma agree_extend (k j : nat) h s h' s' (d : state) :
  (length (requests d) + j <= k)%nat ->
  agree k h s h' s' -> agree j h (extend s d) h' (extend s' d).
Proof.
  intros Hk [He Hf]. split; [done|]. intros i url Hi.
  unfold extend. simpl. rewrite !length_app, <- !Nat.add_assoc.
  apply Hf. lia.
Qed.

Lemma framed_weaken {A} (n k : nat) (m : M A) :
  framed n m -> (n <= k)%nat -> framed k m.
Proof.
  intros Hm Hk h s h' s' Ha.
  destruct (Hm h s h' s' (agree_weaken _ _ _ _ _ _ Hk Ha))
    as (r & d & Hd & H1 & H2).
  exists r, d. split; [lia | done].
Qed.

Lemma framed_throw {A} (e : js_error) : framed 0 (throw e : M A).
Proof.
  intros h s h' s' _. exists (Thrown e), initial_state.
  unfold throw. by rewrite !extend_initial.
Qed.

Lemma framed_eval {A} (f : engine -> outcome A) : framed 0 (eval f).
Proof.
  intros h s h' s' [He _]. exists (f (type_error_message h)), initial_state.
  unfold eval. rewrite !extend_initial, He. done.
Qed.

Lemma framed_write (out : stream) (args : list string) :
  framed 0 (write out args).
Proof.
  intros h s h' s' _.
  exists (Returned tt), (mkState [] [mkEntry out args]).
  unfold write, extend. simpl. by rewrite !app_nil_r.
Qed.

Lemma framed_fetch (url : string) : framed 1 (fetch url).
Proof.
  intros h s h' s' [_ Hf].
  exists (fetch_result h (length (requests s)) url), (mkState [url] []).
  unfold fetch, extend. simpl. rewrite !app_nil_r.
  specialize (Hf 0%nat url). rewrite !Nat.add_0_r in Hf.
  rewrite Hf by lia. done.
Qed.

Lemma framed_bind {A B} (n n' : nat) (m : M A) (k : A -> M B) :
  framed n m -> (forall a, framed n' (k a)) -> framed (n + n') (m ≫= k).
Proof.
  intros Hm Hk h s h' s' Ha.
  destruct (Hm h s h' s' (agree_weaken (n + n') n _ _ _ _ ltac:(lia) Ha))
    as (r & d & Hd & H1 & H2).
  unfold mbind, M_bind. rewrite H1, H2.
  destruct r as [a|e].
  - destruct (Hk a h (extend s d) h' (extend s' d)
                (agree_extend (n + n') n' _ _ _ _ d ltac:(lia) Ha))
      as (r' & d' & Hd' & H1' & H2').
    exists r', (extend d d'). rewrite H1', H2', !extend_assoc.
    split; [|done]. unfold extend. simpl. rewrite length_app. lia.
  - exists (Thrown e), d. split; [lia | done].
Qed.

Lemma framed_try_catch {A} (n n' : nat) (body : M A)
    (handler : js_error -> M A) :
  framed n body -> (forall e, framed n' (handler e)) ->
  framed (n + n') (try_catch body handler).
Proof.
  intros Hm Hk h s h' s' Ha.
  destruct (Hm h s h' s' (agree_weaken (n + n') n _ _ _ _ ltac:(lia) Ha))
    as (r & d & Hd & H1 & H2).
  unfold try_catch. rewrite H1, H2.
  destruct r as [a|e].
  - exists (Returned a), d. split; [lia | done].
  - destruct (Hk e h (extend s d) h' (extend s' d)
                (agree_extend (n + n') n' _ _ _ _ d ltac:(lia) Ha))
      as (r' & d' & Hd' & H1' & H2').
    exists r', (extend d d'). rewrite H1', H2', !extend_assoc.
    split; [|done]. unfold extend. simpl. rewrite length_app. lia.
Qed.

Lemma framed_if {A} (n n' : nat) (b : bool) (m m' : M A) :
  framed n m -> framed n' m' -> framed (Nat.max n n') (if b then m else m').
Proof.
  intros Hm Hm'.
  destruct b; [apply (framed_weaken n) | apply (framed_weaken n')];
    auto; lia.
Qed.

(** Counts the requests of a script built from the operations above. *)
Ltac frame_step :=
  lazymatch goal with
  | |- forall _, _ => intros ?
  | |- framed _ (_ ≫= _) => eapply framed_bind
  | |- framed _ (try_catch _ _) => eapply framed_try_catch
  | |- framed _ (if _ then _ else _) => eapply framed_if
  | |- framed _ (fetch _) => apply framed_fetch
  | |- framed _ (eval _) => apply framed_eval
  | |- framed _ (throw _) => apply framed_throw
  | |- framed _ (console_log _) => apply framed_write
  | |- framed _ (console_error _) => apply framed_write
  | |- framed _ (write _ _) => apply framed_write
  end.

Ltac frame := eapply framed_weaken; [repeat frame_step | simpl; lia].

Lemma framed_check (c : check) : framed 1 (run_check c).
Proof.
  destruct c; simpl;
    [unfold testStatusCode | unfold testDataStructure
    | unfold testCharactersHaveNames | unfold testSpecificCharacterExists
    | unfold testPagination]; frame.
Qed.

Lemma framed_runTests : framed 5 runTests.
Proof.
  unfold runTests. eapply framed_weaken.
  - repeat first
      [ apply (framed_check StatusCode) | apply (framed_check DataShape)
      | apply (framed_check NamePresence) | apply (framed_check SpecificRecord)
      | apply (framed_check PaginationSize) | frame_step ].
  - simpl. lia.
Qed.

(** C8.  Two runs of the suite, from whatever was requested and written
    before each of them, against hosts that give the same five answers in
    the same order (and run the same engine), end alike and record the same
    things: the same requests and the same console calls, so the same
    per-test lines and the same summary.  Nothing of the past of a run
    decides its outcome. *)
Theorem runTests_same_answers_same_outcome (h : host) (s : state)
    (h' : host) (s' : state) :
  type_error_message h = type_error_message h' ->
  (forall (i : nat) (url : string), (i < 5)%nat ->
     fetch_result h (length (requests s) + i) url
     = fetch_result h' (length (requests s') + i) url) ->
  exists (r : outcome unit) (d : state),
    runTests h s = (r, extend s d) /\ runTests h' s' = (r, extend s' d).
Proof.
  intros He Hf.
  destruct (framed_runTests h s h' s' (conj He Hf)) as (r & d & _ & H1 & H2).
  by exists r, d.
Qed.

Lemma runTests_same_answers_same_outcome_witness :
  exists (r : outcome unit) (d : state),
    runTests (scripted (sample_answers ++ sample_answers)) initial_state
    = (r, extend initial_state d) /\
    runTests (scripted (sample_answers ++ sample_answers))
      (snd (runTests (scripted (sample_answers ++ sample_answers))
              initial_state))
    = (r, extend (snd (runTests (scripted (sample_answers ++ sample_answers))
                         initial_state)) d).
Proof.
  apply (runTests_same_answers_same_outcome
           (scripted (sample_answers ++ sample_answers)) initial_state
           (scripted (sample_answers ++ sample_answers))
           (snd (runTests (scripted (sample_answers ++ sample_answers))
                   initial_state)));
    [reflexivity|].
  intros i url Hi.
  do 5 (destruct i as [|i]; [vm_compute; reflexivity|]). lia.
Defined.

(** ** The whole run *)

(** [runTests] is the early-exit sequence of the five checks between its
    banner and its summary. *)
Lemma runTests_refines (h : host) (s : state) :
  runTests h s =
  let '(invoked, r, s1) := invoke_until_failure checks h (started s) in
  (Returned tt, mkState (requests s1) (console s1 ++ [summary r])).
Proof.
  unfold runTests, checks, invoke_until_failure, run_check, try_catch, mbind,
    M_bind, console_log, console_error, write, started, banner. simpl.
  destruct (testStatusCode h _) as [[[]|e1] s1]; [|done].
  destruct (testDataStructure h s1) as [[[]|e2] s2]; [|done].
  destruct (testCharactersHaveNames h s2) as [[[]|e3] s3]; [|done].
  destruct (testSpecificCharacterExists h s3) as [[[]|e4] s4]; [|done].
  destruct (testPagination h s4) as [[[]|e5] s5]; done.
Qed.


(** Every check sends one request, for its URL, and writes only this: lines
    of [pass_lines], then, if it throws, its FAILED line with the message of
    the error it throws. *)
Lemma check_effects (c : check) (h : host) (s : state) :
  exists lines : list string,
    Forall (fun l => In l (pass_lines c)) lines /\
    snd (run_check c h s)
    = mkState (requests s ++ [check_url c])
        (console s ++ map (fun l => mkEntry Stdout [l]) lines ++
         match fst (run_check c h s) with
         | Returned _ => []
         | Thrown e => [mkEntry Stderr [failure_label c; err_message e]]
         end).
Proof.
  destruct c; run_script; simpl;
    repeat (case_match; simpl in *; simplify_eq); simpl;
    first
      [ exists []; split; [by constructor | simpl; by rewrite ?app_nil_r]
      | eexists [_]; split;
        [ repeat constructor; simpl; eauto
        | simpl; rewrite <- ?app_assoc; reflexivity ]
      | eexists [_; _]; split;
        [ repeat constructor; simpl; eauto
        | simpl; rewrite <- ?app_assoc; reflexivity ] ].
Qed.

Lemma check_requests (c : check) (h : host) (s : state) :
  requests (snd (run_check c h s)) = (requests s ++ [check_url c])%list.
Proof. destruct (check_effects c h s) as (lines & _ & ->). done. Qed.

(** The early-exit sequence invokes a prefix of the checks, all of them if
    none throws, and sends the requests of the checks it invokes. *)
Lemma invoke_until_failure_prefix (cs : list check) (h : host) (s : state) :
  cs <> [] ->
  exists (k : nat),
    (1 <= k <= length cs)%nat /\
    fst (fst (invoke_until_failure cs h s)) = take k cs /\
    (is_returned (snd (fst (invoke_until_failure cs h s))) = true
     -> k = length cs) /\
    requests (snd (invoke_until_failure cs h s))
    = (requests s ++ map check_url (take k cs))%list.
Proof.
  revert s. induction cs as [|c cs IH]; intros s Hne; [done|]. simpl.
  pose proof (check_requests c h s) as Hreq.
  destruct (run_check c h s) as [[[]|e] s1]; simpl in *.
  - destruct cs as [|c' cs].
    + exists 1%nat. simpl. repeat split; auto.
    + destruct (IH s1 ltac:(done)) as (k & Hk & Hinv & Hall & Hr).
      destruct (invoke_until_failure (c' :: cs) h s1) as [[invoked r] s2].
      simpl in *. exists (S k). repeat split; try lia.
      * simpl. by rewrite Hinv.
      * intros Hret. by rewrite (Hall Hret).
      * rewrite Hr, Hreq, <- app_assoc. done.
  - exists 1%nat. simpl. rewrite take_0. repeat split; try lia; done.
Qed.

(** A Status Code check that throws has written its FAILED line only. *)
Lemma testStatusCode_throws_effects (h : host) (s : state) (e : js_error) :
  throws testStatusCode h s e ->
  testStatusCode h s
  = (Thrown e,
     mkState (requests s ++ [API_URL])
       (console s ++ [mkEntry Stderr ["Test 1: FAILED"; err_message e]])).
Proof.
  run_script. simpl.
  repeat (case_match; simpl in *; simplify_eq); intros He;
    simpl in *; simplify_eq; done.
Qed.

(** C1.  [runTests] is the sequence of the five checks, in the order Status
    Code, Data Shape, Name Presence, Specific Record, Pagination, cut after
    the first check that throws, between the banner and the summary.  The
    checks invoked are the first k of the five, and the requests of the run
    are theirs, in that order: no request of a later check is sent.  When
    the Status Code check throws, the run sends its request and nothing
    else, and writes the banner, the FAILED line of Test 1 and the summary
    and nothing else. *)
Theorem runTests_in_order_until_first_failure (h : host) (s : state) :
  exists (invoked : list check) (r : outcome unit) (s1 : state) (k : nat),
    invoke_until_failure
      [StatusCode; DataShape; NamePresence; SpecificRecord; PaginationSize]
      h (started s) = (invoked, r, s1) /\
    runTests h s
    = (Returned tt, mkState (requests s1) (console s1 ++ [summary r])) /\
    (1 <= k <= 5)%nat /\
    invoked
    = take k [StatusCode; DataShape; NamePresence; SpecificRecord;
              PaginationSize] /\
    (is_returned r = true -> k = 5%nat) /\
    requests (snd (runTests h s))
    = (requests s ++ map check_url invoked)%list /\
    (forall e, throws testStatusCode h (started s) e ->
       runTests h s
       = (Returned tt,
          mkState (requests s ++ [API_URL])
            (console s ++ [banner;
                           mkEntry Stderr ["Test 1: FAILED"; err_message e];
                           summary (Thrown e)]))).
Proof.
  pose proof (runTests_refines h s) as Href.
  destruct (invoke_until_failure_prefix checks h (started s) ltac:(done))
    as (k & Hk & Hinv & Hall & Hreq).
  fold checks. unfold checks at 1.
  destruct (invoke_until_failure checks h (started s))
    as [[invoked r] s1] eqn:Hrun.
  simpl in Hinv, Hall, Hreq, Hk.
  exists invoked, r, s1, k. rewrite Href. simpl.
  repeat split; try done; try lia.
  - by rewrite Hreq, Hinv.
  - intros e He. apply testStatusCode_throws_effects in He.
    unfold checks in Hrun. simpl in Hrun. rewrite He in Hrun.
    simplify_eq. simpl. by rewrite <- !app_assoc.
Qed.

Lemma runTests_in_order_until_first_failure_witness :
  runTests (answering (Returned (mkResponse 404 (Returned VNull))))
    initial_state
  = (Returned tt,
     mkState [API_URL]
       [banner;
        mkEntry Stderr ["Test 1: FAILED";
                        "Expected status code 200, but got 404 ❌"];
        mkEntry Stderr [newline +:+ "Tests failed!";
                        "Expected status code 200, but got 404 ❌"]]).
Proof.
  destruct (runTests_in_order_until_first_failure
              (answering (Returned (mkResponse 404 (Returned VNull))))
              initial_state)
    as (invoked & r & s1 & k & _ & _ & _ & _ & _ & _ & Hfirst).
  apply (Hfirst (mkError Error "Expected status code 200, but got 404 ❌")).
  reflexivity.
Defined.

(** C9.  Whatever the host answers and whatever a check throws,
    [runTests] returns: its [catch] handles the error, and nothing is thrown
    past it to the caller at the end of the script. *)
Theorem runTests_always_returns (h : host) (s : state) :
  fst (runTests h s) = Returned tt.
Proof.
  rewrite runTests_refines.
  by destruct (invoke_until_failure checks h (started s)) as [[invoked r] s1].
Qed.

(** ** What the console shows *)

Lemma shows_app (out : stream) (text : string) (es es' : list entry) :
  shows out text (es ++ es') = shows out text es || shows out text es'.
Proof. apply existsb_app. Qed.

Lemma shows_anywhere_app (text : string) (es es' : list entry) :
  shows_anywhere text (es ++ es')
  = shows_anywhere text es || shows_anywhere text es'.
Proof. apply existsb_app. Qed.

Lemma shows_anywhere_false (out : stream) (text : string) (es : list entry) :
  shows_anywhere text es = false -> shows out text es = false.
Proof.
  unfold shows, shows_anywhere. induction es as [|e es IH]; simpl; [done|].
  intros [-> Hes]%orb_false_iff. rewrite andb_false_r. by apply IH.
Qed.

(** The lines of the checks that pass carry none of the three marks. *)
Lemma benign_marks (es : list entry) :
  Forall benign es ->
  shows_anywhere "FAILED" es = false /\
  shows_anywhere "Tests failed!" es = false /\
  shows_anywhere "All tests completed successfully" es = false.
Proof.
  induction 1 as [|e es (c & line & Hin & ->) Hes (IH1 & IH2 & IH3)];
    [done|].
  unfold shows_anywhere in *. simpl existsb. rewrite IH1, IH2, IH3.
  destruct c; simpl in Hin; intuition subst; by vm_compute.
Qed.

Lemma failed_line_shows (c : check) (message : string) :
  includes (entry_text (mkEntry Stderr [failure_label c; message])) "FAILED"
  = true.
Proof.
  destruct c.
  - apply (includes_middle "Test 1: " "FAILED" (" " +:+ message)).
  - apply (includes_middle "Test 2: " "FAILED" (" " +:+ message)).
  - apply (includes_middle "Test 3: " "FAILED" (" " +:+ message)).
  - apply (includes_middle "Test 4: " "FAILED" (". " +:+ message)).
  - apply (includes_middle "Test 5: " "FAILED" (". " +:+ message)).
Qed.

Lemma failure_summary_shows (e : js_error) :
  includes (entry_text (summary (Thrown e))) "Tests failed!" = true.
Proof.
  apply (includes_middle newline "Tests failed!" (" " +:+ err_message e)).
Qed.

(** What the early-exit sequence writes: lines of checks that pass, then,
    if a check throws, the FAILED line of that check. *)
Lemma invoke_until_failure_console (cs : list check) (h : host) (s : state) :
  exists es : list entry,
    console (snd (invoke_until_failure cs h s)) = (console s ++ es)%list /\
    match snd (fst (invoke_until_failure cs h s)) with
    | Returned _ => Forall benign es
    | Thrown e =>
        exists (quiet : list entry) (c : check),
          es = (quiet ++ [mkEntry Stderr [failure_label c; err_message e]])%list
          /\ Forall benign quiet
    end.
Proof.
  revert s. induction cs as [|c cs IH]; intros s; simpl.
  { exists []. by rewrite app_nil_r. }
  destruct (check_effects c h s) as (lines & Hlines & Hs).
  assert (Forall benign (map (fun l => mkEntry Stdout [l]) lines)) as Hquiet.
  { apply Forall_map. eapply Forall_impl; [exact Hlines|].
    intros line Hin. by exists c, line. }
  destruct (run_check c h s) as [[[]|e] s1]; simpl in Hs; subst s1.
  - specialize (IH (mkState (requests s ++ [check_url c])
                      (console s ++ map (fun l => mkEntry Stdout [l]) lines ++ []))).
    destruct IH as (es & Hes & Hshape).
    destruct (invoke_until_failure cs h _) as [[invoked r] s2].
    simpl in *. rewrite app_nil_r in Hes.
    exists (map (fun l => mkEntry Stdout [l]) lines ++ es).
    split; [by rewrite Hes, app_assoc|].
    destruct r as [[]|e].
    + by apply Forall_app.
    + destruct Hshape as (quiet & c' & -> & Hq).
      exists (map (fun l => mkEntry Stdout [l]) lines ++ quiet), c'.
      split; [by rewrite app_assoc | by apply Forall_app].
  - simpl. eexists. split; [reflexivity|].
    by exists (map (fun l => mkEntry Stdout [l]) lines), c.
Qed.

(** C7, amended.  For every run, let [r] be how the sequence of the five
    checks ends and [es] what the run writes.  If all five checks pass, a
    [console.log] line shows "All tests completed successfully" (the text
    ends there, without a full stop) and no line shows "FAILED" or "Tests
    failed!".  If a check throws, a [console.error] line shows "FAILED",
    another shows "Tests failed!", and no [console.log] line shows "All
    tests completed successfully".  So a run never gives both the sign of
    success and a sign of failure. *)
Theorem runTests_indicates_outcome (h : host) (s : state) :
  exists (r : outcome unit) (es : list entry),
    snd (fst (invoke_until_failure
                [StatusCode; DataShape; NamePresence; SpecificRecord;
                 PaginationSize] h (started s))) = r /\
    console (snd (runTests h s)) = console s ++ es /\
    (is_returned r = true ->
     shows Stdout "All tests completed successfully" es = true /\
     shows_anywhere "FAILED" es = false /\
     shows_anywhere "Tests failed!" es = false) /\
    (is_returned r = false ->
     shows Stderr "FAILED" es = true /\
     shows Stderr "Tests failed!" es = true /\
     shows Stdout "All tests completed successfully" es = false) /\
    shows Stdout "All tests completed successfully" es
    && (shows Stderr "FAILED" es || shows Stderr "Tests failed!" es) = false.
Proof.
  fold checks. rewrite runTests_refines.
  destruct (invoke_until_failure_console checks h (started s))
    as (es & Hes & Hshape).
  destruct (invoke_until_failure checks h (started s)) as [[invoked r] s1].
  simpl in *. exists r, (banner :: es ++ [summary r]).
  split; [done|]. split.
  { rewrite Hes. simpl. by rewrite <- !app_assoc. }
  destruct r as [[]|e].
  - destruct (benign_marks es Hshape) as (H1 & H2 & H3).
    assert (shows Stdout "All tests completed successfully"
              (banner :: es ++ [summary (Returned tt)]) = true) as Hok.
    { change (banner :: es ++ [summary (Returned tt)])
        with ([banner] ++ es ++ [summary (Returned tt)]).
      rewrite !shows_app. replace (shows Stdout _ [summary _]) with true
        by (by vm_compute). by rewrite !orb_true_r. }
    assert (forall text,
              shows_anywhere text es = false ->
              shows_anywhere text [banner] = false ->
              shows_anywhere text [summary (Returned tt)] = false ->
              shows_anywhere text (banner :: es ++ [summary (Returned tt)])
              = false) as Hnone.
    { intros text Ha Hb Hc.
      change (banner :: es ++ [summary (Returned tt)])
        with ([banner] ++ es ++ [summary (Returned tt)]).
      by rewrite !shows_anywhere_app, Ha, Hb, Hc. }
    pose proof (Hnone "FAILED" H1 ltac:(by vm_compute) ltac:(by vm_compute))
      as Hf.
    pose proof (Hnone "Tests failed!" H2 ltac:(by vm_compute)
                  ltac:(by vm_compute)) as Ht.
    repeat split; try done.
    by rewrite (shows_anywhere_false Stderr _ _ Hf),
      (shows_anywhere_false Stderr _ _ Ht), andb_false_r.
  - destruct Hshape as (quiet & c & -> & Hq).
    destruct (benign_marks quiet Hq) as (_ & _ & H3).
    assert (shows Stderr "FAILED"
              (banner :: (quiet ++ [mkEntry Stderr [failure_label c; err_message e]])
                      ++ [summary (Thrown e)]) = true) as Hf.
    { change (banner :: ?l) with ([banner] ++ l). rewrite !shows_app.
      replace (shows Stderr "FAILED"
                 [mkEntry Stderr [failure_label c; err_message e]]) with true.
      - by rewrite !orb_true_r.
      - unfold shows. cbn [existsb]. by rewrite failed_line_shows. }
    assert (shows Stderr "Tests failed!"
              (banner :: (quiet ++ [mkEntry Stderr [failure_label c; err_message e]])
                      ++ [summary (Thrown e)]) = true) as Ht.
    { change (banner :: ?l) with ([banner] ++ l). rewrite !shows_app.
      replace (shows Stderr "Tests failed!" [summary (Thrown e)]) with true.
      - by rewrite !orb_true_r.
      - unfold shows. cbn [existsb]. by rewrite failure_summary_shows. }
    assert (shows Stdout "All tests completed successfully"
              (banner :: (quiet ++ [mkEntry Stderr [failure_label c; err_message e]])
                      ++ [summary (Thrown e)]) = false) as Hs.
    { change (banner :: ?l) with ([banner] ++ l). rewrite !shows_app.
      rewrite (shows_anywhere_false Stdout _ _ H3). done. }
    repeat split; try done. by rewrite Hs.
Qed.

Lemma runTests_indicates_outcome_witness :
  shows Stdout "All tests completed successfully"
    (console (snd (runTests (answering (ok_json (page 50))) initial_state)))
  = true.
Proof.
  destruct (runTests_indicates_outcome (answering (ok_json (page 50)))
              initial_state) as (r & es & Hr & Hes & Hpass & _ & _).
  rewrite Hes. apply Hpass. rewrite <- Hr. vm_compute. reflexivity.
Defined.

(** C7, the claim as written fails: in a run where the five checks pass, no
    line shows "All tests completed successfully." with its full stop. *)
Lemma runTests_success_line_has_no_full_stop :
  invoke_until_failure checks (answering (ok_json (page 50)))
    (started initial_state)
  = (checks, Returned tt,
     snd (invoke_until_failure checks (answering (ok_json (page 50)))
            (started initial_state))) /\
  shows_anywhere "All tests completed successfully."
    (console (snd (runTests (answering (ok_json (page 50))) initial_state)))
  = false.
Proof. split; by vm_compute. Qed.

(** ** A [data] that is not an array *)

(** C10, amended.  Let the request of the check be answered with a body
    whose [data] reads as [data], not an array ([undefined] when the field
    is missing).  The Name Presence and the Specific Record checks then
    throw a [TypeError] of the language, and so does the Pagination Size
    check when [data] is undefined or null; the check writes its FAILED line
    with the message of that error and throws it again.  For any other
    [data] the Pagination Size check reads [data.length] without an error:
    it returns when that is 50, and otherwise, when the value read can be
    printed, writes its FAILED line and throws its own "Expected 50 items
    per page, but got ..." error. *)
Theorem bad_data_type_error (c : check) (h : host) (s : state)
    (r : response) (body data : value) :
  answers_next h s (check_url c) r ->
  json r = Returned body ->
  destructure (type_error_message h) body "data" = Returned data ->
  Array_isArray data = false ->
  (c = NamePresence \/ c = SpecificRecord \/
   (c = PaginationSize /\ nullish data = true) ->
   exists e,
     err_name e = TypeError /\
     run_check c h s
     = (Thrown e,
        mkState (requests s ++ [check_url c])
          (console s ++ [mkEntry Stderr [failure_label c; err_message e]]))) /\
  (c = PaginationSize -> nullish data = false ->
   exists len,
     get_prop (type_error_message h) data "length" = Returned len /\
     (strict_equals_int len 50 = true -> passes testPagination h s) /\
     (strict_equals_int len 50 = false ->
      forall shown, ToString (type_error_message h) len = Returned shown ->
        testPagination h s
        = (Thrown (mkError Error ("Expected 50 items per page, but got "
                                  +:+ shown)),
           mkState (requests s ++ [API_URL])
             (console s ++
              [mkEntry Stderr ["Test 5: FAILED.";
                               "Expected 50 items per page, but got "
                               +:+ shown]])))).
Proof.
  intros Hr Hbody Hd Harr.
  pose proof (destructure_returned _ _ _ _ Hd) as Hnn.
  split.
  - intros [->|[->|[-> Hnull]]]; simpl in Hr; run_script; rewrite Hr; simpl;
      rewrite Hbody, Hd; simpl.
    + destruct data; simpl in *; try done; (eexists (type_error _ _); split; reflexivity).
    + destruct data; simpl in *; try done; (eexists (type_error _ _); split; reflexivity).
    + rewrite !(destructure_not_nullish _ body) by done.
      destruct (get_prop_not_nullish (type_error_message h) body "count" Hnn)
        as [v1 ->].
      destruct (get_prop_not_nullish (type_error_message h) body "totalPages"
                  Hnn) as [v2 ->].
      destruct (get_prop_not_nullish (type_error_message h) body "nextPage"
                  Hnn) as [v3 ->].
      destruct (get_prop_not_nullish (type_error_message h) body
                  "previousPage" Hnn) as [v4 ->].
      simpl. destruct data; simpl in *; try done; (eexists (type_error _ _); split; reflexivity).
  - intros -> Hnull.
    destruct (get_prop_not_nullish (type_error_message h) data "length" Hnull)
      as [len Hlen].
    exists len. split; [done|].
    simpl in Hr; run_script; rewrite Hr; simpl; rewrite Hbody, Hd; simpl.
    rewrite !(destructure_not_nullish _ body) by done.
    destruct (get_prop_not_nullish (type_error_message h) body "count" Hnn)
      as [v1 ->].
    destruct (get_prop_not_nullish (type_error_message h) body "totalPages"
                Hnn) as [v2 ->].
    destruct (get_prop_not_nullish (type_error_message h) body "nextPage"
                Hnn) as [v3 ->].
    destruct (get_prop_not_nullish (type_error_message h) body
                "previousPage" Hnn) as [v4 ->].
    simpl. rewrite Hlen. simpl. split.
    + by intros ->.
    + intros -> shown ->. done.
Qed.

Lemma bad_data_type_error_witness :
  exists e,
    err_name e = TypeError /\
    run_check NamePresence (answering (ok_json (object []))) initial_state
    = (Thrown e,
       mkState [API_URL] [mkEntry Stderr ["Test 3: FAILED"; err_message e]]).
Proof.
  destruct (bad_data_type_error NamePresence
              (answering (ok_json (object []))) initial_state
              (mkResponse 200 (Returned (object []))) (object []) VUndefined)
    as [Hraw _];
    [reflexivity | reflexivity | vm_compute; reflexivity | reflexivity |].
  apply Hraw. by left.
Defined.

(** C10, the claim as written fails: when [data] is the number 7, the
    Pagination Size check reads [data.length] as [undefined] and throws its
    own error, an [Error] and not a [TypeError]; when [data] is an object
    with a [length] of 50, the check passes. *)
Lemma testPagination_data_not_array_no_type_error :
  throws testPagination
    (answering (ok_json (object [("data", VNum (NInt 7))]))) initial_state
    (mkError Error "Expected 50 items per page, but got undefined") /\
  passes testPagination
    (answering (ok_json (object [("data", object [("length", VNum (NInt 50))])])))
    initial_state.
Proof. split; by vm_compute. Qed.

(** * Further properties of the checks *)

(** ** Errors that come from outside *)

(** X1.  When the request of a check is rejected (the network is down, the
    host is unknown, ...), the check writes its FAILED line with the message
    of that error, nothing else, and throws that same error. *)
Theorem rejected_fetch_is_logged_and_rethrown (c : check) (h : host)
    (s : state) (e : js_error) :
  fetch_result h (length (requests s)) (check_url c) = Thrown e ->
  run_check c h s = (Thrown e, after_check c s [failed_line c e]).
Proof.
  intros Hf. destruct c; simpl in Hf; run_script; rewrite Hf; reflexivity.
Qed.

Lemma rejected_fetch_is_logged_and_rethrown_witness :
  run_check PaginationSize (scripted []) initial_state
  = (Thrown (mkError TypeError "fetch failed"),
     mkState [API_URL] [mkEntry Stderr ["Test 5: FAILED."; "fetch failed"]]).
Proof.
  apply (rejected_fetch_is_logged_and_rethrown PaginationSize (scripted [])
           initial_state (mkError TypeError "fetch failed")).
  reflexivity.
Defined.

(** X2.  When the body of the answer cannot be read as JSON, each of the
    four checks that read it writes its FAILED line with the message of the
    error of [response.json()] and throws that same error. *)
Theorem unreadable_body_is_logged_and_rethrown (c : check) (h : host)
    (s : state) (r : response) (e : js_error) :
  c <> StatusCode ->
  answers_next h s (check_url c) r ->
  json r = Thrown e ->
  run_check c h s = (Thrown e, after_check c s [failed_line c e]).
Proof.
  intros Hc Hr Hj.
  destruct c; [done|..]; simpl in Hr; run_script; rewrite Hr; simpl;
    rewrite Hj; reflexivity.
Qed.

Lemma unreadable_body_is_logged_and_rethrown_witness :
  run_check DataShape
    (answering (Returned (mkResponse 200
       (Thrown (mkError SyntaxError "Unexpected end of JSON input")))))
    initial_state
  = (Thrown (mkError SyntaxError "Unexpected end of JSON input"),
     mkState [API_URL]
       [mkEntry Stderr ["Test 2: FAILED"; "Unexpected end of JSON input"]]).
Proof.
  apply (unreadable_body_is_logged_and_rethrown DataShape
           (answering (Returned (mkResponse 200
              (Thrown (mkError SyntaxError "Unexpected end of JSON input")))))
           initial_state
           (mkResponse 200
              (Thrown (mkError SyntaxError "Unexpected end of JSON input")))
           (mkError SyntaxError "Unexpected end of JSON input"));
    [discriminate | reflexivity | reflexivity].
Defined.

(** X3.  When the body parses to [null] (or is undefined), each of the four
    checks that read it throws a [TypeError] of the language, after writing
    its FAILED line with the message of that error. *)
Theorem null_body_raises_type_error (c : check) (h : host) (s : state)
    (r : response) (body : value) :
  c <> StatusCode ->
  answers_next h s (check_url c) r ->
  json r = Returned body ->
  nullish body = true ->
  exists e,
    err_name e = TypeError /\
    run_check c h s = (Thrown e, after_check c s [failed_line c e]).
Proof.
  intros Hc Hr Hj Hnull.
  destruct c; [done|..]; simpl in Hr; run_script; rewrite Hr; simpl;
    rewrite Hj; destruct body; try done; simpl;
    (eexists (type_error _ _); split; reflexivity).
Qed.

Lemma null_body_raises_type_error_witness :
  exists e,
    err_name e = TypeError /\
    run_check NamePresence (answering (ok_json VNull)) initial_state
    = (Thrown e, after_check NamePresence initial_state
                   [failed_line NamePresence e]).
Proof.
  apply (null_body_raises_type_error NamePresence (answering (ok_json VNull))
           initial_state (mkResponse 200 (Returned VNull)) VNull);
    [discriminate | reflexivity | reflexivity | reflexivity].
Defined.

(** ** What a check looks at *)

(** Follows the script along each of its branches. *)
Ltac split_branches :=
  repeat match goal with
    | |- context [match ?x with Returned _ => _ | Thrown _ => _ end] =>
        destruct x eqn:?; simpl
    | |- context [if ?b then _ else _] => destruct b eqn:?; simpl
    end.

(** X4.  The four checks that read the body never look at the status: two
    answers with the same body, whatever their status, get the same verdict
    and the same lines. *)
Theorem body_checks_ignore_status (c : check) (h h' : host) (s : state)
    (r r' : response) :
  c <> StatusCode ->
  type_error_message h = type_error_message h' ->
  answers_next h s (check_url c) r ->
  answers_next h' s (check_url c) r' ->
  json r = json r' ->
  run_check c h s = run_check c h' s.
Proof.
  intros Hc He Hr Hr' Hj.
  destruct h as [f en], h' as [f' en']. simpl in He. subst en'.
  destruct c; [done|..]; simpl in Hr, Hr'; run_script;
    simpl in *; rewrite Hr, Hr'; simpl; rewrite Hj;
    split_branches; reflexivity.
Qed.

Lemma body_checks_ignore_status_witness :
  run_check DataShape
    (answering (Returned (mkResponse 404 (Returned (page 50))))) initial_state
  = run_check DataShape (answering (ok_json (page 50))) initial_state.
Proof.
  apply (body_checks_ignore_status DataShape
           (answering (Returned (mkResponse 404 (Returned (page 50)))))
           (answering (ok_json (page 50))) initial_state
           (mkResponse 404 (Returned (page 50)))
           (mkResponse 200 (Returned (page 50))));
    [discriminate | reflexivity | reflexivity | reflexivity | reflexivity].
Defined.

(** X5.  Of a body that is not null, the four checks that read it use the
    field [data] and nothing else: two bodies with the same [data], whatever
    their [count], [totalPages], [nextPage], [previousPage] or other fields,
    get the same verdict and the same lines. *)
Theorem body_checks_read_only_data (c : check) (h h' : host) (s : state)
    (r r' : response) (body body' : value) :
  c <> StatusCode ->
  type_error_message h = type_error_message h' ->
  answers_next h s (check_url c) r ->
  answers_next h' s (check_url c) r' ->
  json r = Returned body ->
  json r' = Returned body' ->
  nullish body = false ->
  nullish body' = false ->
  get_prop (type_error_message h) body "data"
  = get_prop (type_error_message h) body' "data" ->
  run_check c h s = run_check c h' s.
Proof.
  intros Hc He Hr Hr' Hj Hj' Hn Hn' Hd.
  destruct h as [f en], h' as [f' en']. simpl in He, Hd. subst en'.
  destruct c; [done|..]; simpl in Hr, Hr'; run_script;
    simpl in *; rewrite Hr, Hr'; simpl; rewrite Hj, Hj';
    rewrite ?(destructure_not_nullish _ body),
      ?(destructure_not_nullish _ body') by done;
    rewrite Hd; try (split_branches; reflexivity).
  destruct (get_prop en body' "data") as [d|e]; [|reflexivity].
  destruct (get_prop_not_nullish en body "count" Hn) as [v1 ->].
  destruct (get_prop_not_nullish en body "totalPages" Hn) as [v2 ->].
  destruct (get_prop_not_nullish en body "nextPage" Hn) as [v3 ->].
  destruct (get_prop_not_nullish en body "previousPage" Hn) as [v4 ->].
  destruct (get_prop_not_nullish en body' "count" Hn') as [w1 ->].
  destruct (get_prop_not_nullish en body' "totalPages" Hn') as [w2 ->].
  destruct (get_prop_not_nullish en body' "nextPage" Hn') as [w3 ->].
  destruct (get_prop_not_nullish en body' "previousPage" Hn') as [w4 ->].
  simpl. split_branches; reflexivity.
Qed.

Lemma body_checks_read_only_data_witness :
  run_check PaginationSize
    (answering (ok_json (object [("data", VArr [character "Goofy"]);
                                 ("count", VNum (NInt 1));
                                 ("nextPage", VNull)])))
    initial_state
  = run_check PaginationSize
      (answering (ok_json (object [("data", VArr [character "Goofy"])])))
      initial_state.
Proof.
  apply (body_checks_read_only_data PaginationSize
           (answering (ok_json (object [("data", VArr [character "Goofy"]);
                                        ("count", VNum (NInt 1));
                                        ("nextPage", VNull)])))
           (answering (ok_json (object [("data", VArr [character "Goofy"])])))
           initial_state
           (mkResponse 200
              (Returned (object [("data", VArr [character "Goofy"]);
                                 ("count", VNum (NInt 1));
                                 ("nextPage", VNull)])))
           (mkResponse 200
              (Returned (object [("data", VArr [character "Goofy"])])))
           (object [("data", VArr [character "Goofy"]);
                    ("count", VNum (NInt 1)); ("nextPage", VNull)])
           (object [("data", VArr [character "Goofy"])]));
    [discriminate | reflexivity | reflexivity | reflexivity | reflexivity
    | reflexivity | reflexivity | reflexivity | vm_compute; reflexivity].
Defined.

(** ** An empty page *)

(** X6.  On a body whose [data] is the empty array, the Name Presence check
    passes (no element lacks a name), the Specific Record check throws its
    not-found error, and the Pagination Size check throws "Expected 50 items
    per page, but got 0". *)
Theorem empty_data_array_verdicts (c : check) (h : host) (s : state)
    (r : response) (body : value) :
  answers_next h s (check_url c) r ->
  json r = Returned body ->
  destructure (type_error_message h) body "data" = Returned (VArr []) ->
  (c = NamePresence ->
   run_check c h s
   = (Returned tt,
      after_check c s
        [log_line "Test 3: All characters have a 'name' property"])) /\
  (c = SpecificRecord ->
   throws (run_check c) h s
     (mkError Error "'Mickey Mouse' character not found.")) /\
  (c = PaginationSize ->
   throws (run_check c) h s
     (mkError Error "Expected 50 items per page, but got 0")).
Proof.
  intros Hr Hj Hd.
  pose proof (destructure_returned _ _ _ _ Hd) as Hnn.
  repeat split; intros ->; simpl in Hr; run_script; rewrite Hr; simpl;
    rewrite Hj, Hd; simpl; try reflexivity.
  rewrite !(destructure_not_nullish _ body) by done.
  destruct (get_prop_not_nullish (type_error_message h) body "count" Hnn)
    as [v1 ->].
  destruct (get_prop_not_nullish (type_error_message h) body "totalPages" Hnn)
    as [v2 ->].
  destruct (get_prop_not_nullish (type_error_message h) body "nextPage" Hnn)
    as [v3 ->].
  destruct (get_prop_not_nullish (type_error_message h) body "previousPage" Hnn)
    as [v4 ->].
  reflexivity.
Qed.

Lemma empty_data_array_verdicts_witness :
  run_check NamePresence (answering (ok_json (object [("data", VArr [])])))
    initial_state
  = (Returned tt,
     after_check NamePresence initial_state
       [log_line "Test 3: All characters have a 'name' property"]).
Proof.
  destruct (empty_data_array_verdicts NamePresence
              (answering (ok_json (object [("data", VArr [])])))
              initial_state
              (mkResponse 200 (Returned (object [("data", VArr [])])))
              (object [("data", VArr [])]))
    as (Hnames & _ & _);
    [reflexivity | reflexivity | vm_compute; reflexivity |].
  by apply Hnames.
Defined.

(** X7.  On a body whose [data] is the empty array, the Data Shape check
    first writes "Test 2: Response 'data' property is an array" with
    [console.log], then fails: it writes its FAILED line and throws "Data
    array is empty.".  A failed Test 2 can thus show one of its success
    lines. *)
Theorem empty_array_is_announced_then_rejected (h : host) (s : state)
    (r : response) (body : value) :
  answers_next h s API_URL r ->
  json r = Returned body ->
  get_prop (type_error_message h) body "data" = Returned (VArr []) ->
  testDataStructure h s
  = (Thrown (mkError Error "Data array is empty."),
     after_check DataShape s
       [log_line "Test 2: Response 'data' property is an array";
        failed_line DataShape (mkError Error "Data array is empty.")]).
Proof.
  intros Hr Hj Hd. run_script. rewrite Hr. simpl. rewrite Hj, Hd. simpl.
  unfold after_check. simpl. by rewrite <- app_assoc.
Qed.

Lemma empty_array_is_announced_then_rejected_witness :
  testDataStructure (answering (ok_json (object [("data", VArr [])])))
    initial_state
  = (Thrown (mkError Error "Data array is empty."),
     mkState [API_URL]
       [mkEntry Stdout ["Test 2: Response 'data' property is an array"];
        mkEntry Stderr ["Test 2: FAILED"; "Data array is empty."]]).
Proof.
  apply (empty_array_is_announced_then_rejected
           (answering (ok_json (object [("data", VArr [])]))) initial_state
           (mkResponse 200 (Returned (object [("data", VArr [])])))
           (object [("data", VArr [])]));
    [reflexivity | reflexivity | vm_compute; reflexivity].
Defined.

(** ** What a check records *)

(** A check that returns has written all its success lines and no other. *)
Lemma check_passes_effects (c : check) (h : host) (s : state) :
  fst (run_check c h s) = Returned tt ->
  snd (run_check c h s) = after_check c s (map log_line (pass_lines c)).
Proof.
  unfold after_check, log_line.
  destruct c; run_script; simpl;
    repeat (case_match; simpl in *; simplify_eq); intros He;
    simpl in *; simplify_eq; rewrite <- ?app_assoc; done.
Qed.

(** X8.  Whatever happens, a check sends one request, for its URL.  It
    writes with [console.error] exactly when it throws, and then once, at
    the end: its FAILED label and the message of the error it throws.  What
    it writes before are success lines of its own. *)
Theorem check_sends_one_request_and_logs_its_failure (c : check) (h : host)
    (s : state) :
  exists lines : list string,
    Forall (fun l => In l (pass_lines c)) lines /\
    snd (run_check c h s)
    = after_check c s
        (map log_line lines ++
         match fst (run_check c h s) with
         | Returned _ => []
         | Thrown e => [failed_line c e]
         end).
Proof. apply check_effects. Qed.

(** A check run alone against the answer it gets does what it does in the
    suite. *)
Lemma check_from_scratch (c : check) (h : host) (s : state) :
  run_check c h s =
  let '(r, d) :=
    run_check c
      (answering_with (type_error_message h)
         (fetch_result h (length (requests s)) (check_url c)))
      initial_state in
  (r, extend s d).
Proof.
  destruct h as [f en]. unfold answering_with, extend, initial_state.
  destruct c; run_script; simpl; split_branches;
    rewrite <- ?app_assoc; simpl; rewrite ?app_nil_r; reflexivity.
Qed.

(** X9.  The verdict of a check and what it writes depend on the answer to
    its own request only: whatever was requested or written before, and
    whatever the host answers to other requests, two runs of the check that
    get the same answer end alike and write the same lines. *)
Theorem check_depends_on_its_answer_only (c : check) (h : host) (s : state)
    (h' : host) (s' : state) :
  type_error_message h = type_error_message h' ->
  fetch_result h (length (requests s)) (check_url c)
  = fetch_result h' (length (requests s')) (check_url c) ->
  exists (r : outcome unit) (d : state),
    requests d = [check_url c] /\
    run_check c h s = (r, extend s d) /\
    run_check c h' s' = (r, extend s' d).
Proof.
  intros He Hf.
  rewrite (check_from_scratch c h s), (check_from_scratch c h' s'), He, Hf.
  pose proof (check_requests c
                (answering_with (type_error_message h')
                   (fetch_result h' (length (requests s')) (check_url c)))
                initial_state) as Hreq.
  destruct (run_check c _ initial_state) as [r d]. by exists r, d.
Qed.

Lemma check_depends_on_its_answer_only_witness :
  exists (r : outcome unit) (d : state),
    requests d = [API_URL] /\
    run_check PaginationSize (scripted sample_answers) initial_state
    = (r, extend initial_state d) /\
    run_check PaginationSize (answering (ok_json VNull))
      (mkState [API_URL; API_URL; API_URL] [banner])
    = (r, extend (mkState [API_URL; API_URL; API_URL] [banner]) d).
Proof.
  apply (check_depends_on_its_answer_only PaginationSize
           (scripted sample_answers) initial_state
           (answering (ok_json VNull))
           (mkState [API_URL; API_URL; API_URL] [banner]));
    [reflexivity | vm_compute; reflexivity].
Defined.

(** ** What a run writes *)

(** A sequence of checks that all pass has sent their requests and written
    their success lines, in order. *)
Lemma invoke_until_failure_all_pass (cs : list check) (h : host) (s : state) :
  snd (fst (invoke_until_failure cs h s)) = Returned tt ->
  snd (invoke_until_failure cs h s)
  = mkState (requests s ++ map check_url cs)
      (console s ++ concat (map (fun c => map log_line (pass_lines c)) cs)).
Proof.
  revert s. induction cs as [|c cs IH]; intros s; simpl.
  { intros _. destruct s. simpl. by rewrite !app_nil_r. }
  pose proof (check_passes_effects c h s) as Hc.
  destruct (run_check c h s) as [[[]|e] s1]; simpl in *; [|done].
  rewrite (Hc eq_refl). clear Hc. specialize (IH (after_check c s
    (map log_line (pass_lines c)))).
  destruct (invoke_until_failure cs h _) as [[invoked r] s2]. simpl in *.
  intros Hr. rewrite (IH Hr). by rewrite <- !app_assoc.
Qed.

(** X10.  When the five checks pass, the run has sent the five requests
    (the fourth with the query) and written these eight lines with
    [console.log], and nothing with [console.error]: the banner, one line
    for Test 1, two for Test 2, one each for Tests 3, 4 and 5, and the
    summary. *)
Theorem passing_run_output (h : host) (s : state) :
  snd (fst (invoke_until_failure
              [StatusCode; DataShape; NamePresence; SpecificRecord;
               PaginationSize] h (started s))) = Returned tt ->
  runTests h s
  = (Returned tt,
     mkState
       (requests s ++
        [API_URL; API_URL; API_URL; API_URL +:+ "?name=Mickey Mouse"; API_URL])
       (console s ++
        map log_line
          ["--- Running Disney API Tests ---";
           "Test 1: Status code is 200";
           "Test 2: Response 'data' property is an array";
           "Test 2: Data array is not empty";
           "Test 3: All characters have a 'name' property";
           "Test 4: 'Mickey Mouse' character found.";
           "Test 5: Pagination returns the correct number of items per page (50).";
           newline +:+ "All tests completed successfully"])).
Proof.
  fold checks. rewrite runTests_refines.
  pose proof (invoke_until_failure_all_pass checks h (started s)) as Hall.
  destruct (invoke_until_failure checks h (started s)) as [[invoked r] s1].
  simpl in *. intros ->. rewrite (Hall eq_refl). simpl.
  by rewrite <- !app_assoc.
Qed.

Lemma passing_run_output_witness :
  runTests (answering (ok_json (page 50))) initial_state
  = (Returned tt,
     mkState
       [API_URL; API_URL; API_URL; API_URL +:+ "?name=Mickey Mouse"; API_URL]
       (map log_line
          ["--- Running Disney API Tests ---";
           "Test 1: Status code is 200";
           "Test 2: Response 'data' property is an array";
           "Test 2: Data array is not empty";
           "Test 3: All characters have a 'name' property";
           "Test 4: 'Mickey Mouse' character found.";
           "Test 5: Pagination returns the correct number of items per page (50).";
           newline +:+ "All tests completed successfully"])).
Proof.
  apply (passing_run_output (answering (ok_json (page 50))) initial_state).
  vm_compute. reflexivity.
Defined.

(** X11.  When a check throws [e], the run writes with [console.error]
    twice, last of all: the FAILED line of one check, then the summary
    "Tests failed!", both with the message of [e].  All it writes before is
    written with [console.log].  A run reports one failure, never more. *)
Theorem failing_run_reports_one_failure (h : host) (s : state)
    (e : js_error) :
  snd (fst (invoke_until_failure
              [StatusCode; DataShape; NamePresence; SpecificRecord;
               PaginationSize] h (started s))) = Thrown e ->
  exists (c : check) (quiet : list entry),
    Forall (fun x => entry_stream x = Stdout) quiet /\
    console (snd (runTests h s))
    = console s ++ quiet ++
      [failed_line c e;
       mkEntry Stderr [newline +:+ "Tests failed!"; err_message e]].
Proof.
  fold checks. rewrite runTests_refines.
  destruct (invoke_until_failure_console checks h (started s))
    as (es & Hes & Hshape).
  destruct (invoke_until_failure checks h (started s)) as [[invoked r] s1].
  simpl in *. intros ->. destruct Hshape as (quiet & c & -> & Hq).
  exists c, (banner :: quiet). split.
  - constructor; [done|]. eapply Forall_impl; [exact Hq|].
    by intros x (c' & line & _ & ->).
  - rewrite Hes. simpl. by rewrite <- !app_assoc.
Qed.

Lemma failing_run_reports_one_failure_witness :
  exists (c : check) (quiet : list entry),
    Forall (fun x => entry_stream x = Stdout) quiet /\
    console (snd (runTests (answering (ok_json (page 10))) initial_state))
    = console initial_state ++ quiet ++
      [failed_line c
         (mkError Error "Expected 50 items per page, but got 10");
       mkEntry Stderr [newline +:+ "Tests failed!";
                       "Expected 50 items per page, but got 10"]].
Proof.
  apply (failing_run_reports_one_failure (answering (ok_json (page 10)))
           initial_state
           (mkError Error "Expected 50 items per page, but got 10")).
  vm_compute. reflexivity.
Defined.

(** X12.  When the first request is rejected, the run sends no other: it
    writes the banner, the FAILED line of Test 1 and the summary, both with
    the message of the rejection, and returns. *)
Theorem run_without_network (h : host) (s : state) (e : js_error) :
  fetch_result h (length (requests s)) API_URL = Thrown e ->
  runTests h s
  = (Returned tt,
     mkState (requests s ++ [API_URL])
       (console s ++
        [banner; failed_line StatusCode e;
         mkEntry Stderr [newline +:+ "Tests failed!"; err_message e]])).
Proof.
  intros Hf. rewrite runTests_refines. unfold checks, started. simpl.
  run_script. simpl. rewrite Hf. simpl. by rewrite <- !app_assoc.
Qed.

Lemma run_without_network_witness :
  runTests (scripted []) initial_state
  = (Returned tt,
     mkState [API_URL]
       [banner; mkEntry Stderr ["Test 1: FAILED"; "fetch failed"];
        mkEntry Stderr [newline +:+ "Tests failed!"; "fetch failed"]]).
Proof.
  apply (run_without_network (scripted []) initial_state
           (mkError TypeError "fetch failed")).
  reflexivity.
Defined.

(** ** What is not looked at *)

(** X13.  The Status Code check never reads the body: two answers with the
    same status, whatever their bodies (JSON or not), get the same verdict
    and the same lines. *)
Theorem status_check_ignores_body (h h' : host) (s : state)
    (r r' : response) :
  answers_next h s API_URL r ->
  answers_next h' s API_URL r' ->
  status r = status r' ->
  testStatusCode h s = testStatusCode h' s.
Proof.
  intros Hr Hr' Hs. run_script. rewrite Hr, Hr'. simpl. rewrite Hs.
  split_branches; reflexivity.
Qed.

Lemma status_check_ignores_body_witness :
  testStatusCode
    (answering (Returned (mkResponse 200
       (Thrown (mkError SyntaxError "Unexpected end of JSON input")))))
    initial_state
  = testStatusCode (answering (ok_json (page 50))) initial_state.
Proof.
  apply (status_check_ignores_body
           (answering (Returned (mkResponse 200
              (Thrown (mkError SyntaxError "Unexpected end of JSON input")))))
           (answering (ok_json (page 50))) initial_state
           (mkResponse 200
              (Thrown (mkError SyntaxError "Unexpected end of JSON input")))
           (mkResponse 200 (Returned (page 50))));
    reflexivity.
Defined.

Lemma some_stops_at_match (en : engine) (name : string)
    (pre : list value) (x : value) (rest : list value) :
  forallb (fun y => negb (nullish y)) pre = true ->
  is_named en name x = true ->
  Array_some (fun y => obind (get_prop en y "name") (fun n =>
                Returned (VBool (strict_equals_string n name))))
    (pre ++ x :: rest)
  = Returned true.
Proof.
  intros Hpre Hx. induction pre as [|y pre IH]; simpl.
  - unfold is_named in Hx.
    destruct (get_prop en x "name") as [n|e]; [|done]. simpl. by rewrite Hx.
  - simpl in Hpre. apply andb_true_iff in Hpre as [Hy Hpre].
    apply negb_true_iff in Hy.
    destruct (get_prop_not_nullish en y "name" Hy) as [n ->]. simpl.
    destruct (strict_equals_string n name); simpl; [done | by apply IH].
Qed.

Lemma every_stops_at_miss (en : engine) (pre : list value) (x : value)
    (rest : list value) :
  forallb (has_truthy_name en) pre = true ->
  nullish x = false ->
  has_truthy_name en x = false ->
  Array_every (fun y => get_prop en y "name") (pre ++ x :: rest)
  = Returned false.
Proof.
  intros Hpre Hnull Hx. induction pre as [|y pre IH]; simpl.
  - unfold has_truthy_name in Hx.
    destruct (get_prop_not_nullish en x "name" Hnull) as [n Hn].
    rewrite Hn in Hx |- *. simpl. by rewrite Hx.
  - simpl in Hpre. apply andb_true_iff in Hpre as [Hy Hpre].
    unfold has_truthy_name in Hy.
    destruct (get_prop en y "name") as [n|e]; [|done]. simpl.
    rewrite Hy. by apply IH.
Qed.

(** X14.  The Specific Record check stops at the first element named
    "Mickey Mouse": when the elements before it are records, the check
    passes whatever comes after it, a [null] included. *)
Theorem specific_record_stops_at_first_match (h : host) (s : state)
    (r : response) (body : value) (pre : list value) (x : value)
    (rest : list value) :
  answers_next h s (check_url SpecificRecord) r ->
  json r = Returned body ->
  destructure (type_error_message h) body "data"
  = Returned (VArr (pre ++ x :: rest)) ->
  forallb (fun y => negb (nullish y)) pre = true ->
  is_named (type_error_message h) "Mickey Mouse" x = true ->
  testSpecificCharacterExists h s
  = (Returned tt,
     after_check SpecificRecord s
       [log_line "Test 4: 'Mickey Mouse' character found."]).
Proof.
  intros Hr Hj Hd Hpre Hx. simpl in Hr. run_script. rewrite Hr. simpl.
  rewrite Hj, Hd. simpl. rewrite some_stops_at_match by done. reflexivity.
Qed.

Lemma specific_record_stops_at_first_match_witness :
  passes testSpecificCharacterExists
    (answering (ok_json (object [("data", VArr [character "Goofy";
                                                character "Mickey Mouse";
                                                VNull])])))
    initial_state.
Proof.
  unfold passes.
  rewrite (specific_record_stops_at_first_match
             (answering (ok_json (object [("data", VArr [character "Goofy";
                                                         character "Mickey Mouse";
                                                         VNull])])))
             initial_state
             (mkResponse 200
                (Returned (object [("data", VArr [character "Goofy";
                                                  character "Mickey Mouse";
                                                  VNull])])))
             (object [("data", VArr [character "Goofy";
                                     character "Mickey Mouse"; VNull])])
             [character "Goofy"] (character "Mickey Mouse") [VNull]);
    [reflexivity | reflexivity | reflexivity | vm_compute; reflexivity
    | vm_compute; reflexivity | vm_compute; reflexivity].
Defined.

(** X15.  The Name Presence check stops at the first element without a
    truthy [name]: when that element is not null, the check throws "Some
    characters are missing a 'name' property." whatever comes after it, a
    [null] included, and nothing in what it writes tells which element it
    was. *)
Theorem name_presence_stops_at_first_miss (h : host) (s : state)
    (r : response) (body : value) (pre : list value) (x : value)
    (rest : list value) :
  answers_next h s API_URL r ->
  json r = Returned body ->
  destructure (type_error_message h) body "data"
  = Returned (VArr (pre ++ x :: rest)) ->
  forallb (has_truthy_name (type_error_message h)) pre = true ->
  nullish x = false ->
  has_truthy_name (type_error_message h) x = false ->
  testCharactersHaveNames h s
  = (Thrown (mkError Error "Some characters are missing a 'name' property."),
     after_check NamePresence s
       [failed_line NamePresence
          (mkError Error "Some characters are missing a 'name' property.")]).
Proof.
  intros Hr Hj Hd Hpre Hnull Hx. run_script. rewrite Hr. simpl.
  rewrite Hj, Hd. simpl. rewrite every_stops_at_miss by done. reflexivity.
Qed.

Lemma name_presence_stops_at_first_miss_witness :
  throws testCharactersHaveNames
    (answering (ok_json (object [("data", VArr [character "Goofy";
                                                object []; VNull])])))
    initial_state
    (mkError Error "Some characters are missing a 'name' property.").
Proof.
  unfold throws.
  rewrite (name_presence_stops_at_first_miss
             (answering (ok_json (object [("data", VArr [character "Goofy";
                                                         object []; VNull])])))
             initial_state
             (mkResponse 200
                (Returned (object [("data", VArr [character "Goofy";
                                                  object []; VNull])])))
             (object [("data", VArr [character "Goofy"; object []; VNull])])
             [character "Goofy"] (object []) [VNull]);
    [reflexivity | reflexivity | reflexivity | vm_compute; reflexivity
    | vm_compute; reflexivity | reflexivity | vm_compute; reflexivity].
Defined.
